(** * Skills mapping and Bayesian knowledge tracing

    A shallow embedding of [src/olianalytics/skills_models.py]: the
    [BKTEstimator], the [SkillsMap] (skills and objectives) and the
    [ResourcesMap] (resources and skills), with the properties their
    specification states about them.

    Conventions of the embedding.
    - A Python exception is a value of [exn]; a call that may raise returns
      a [result].  The bind of [result] is the sequencing of statements.
    - The probabilities (Python floats) are exact rationals [Q]; the one
      partial operation, [/], raises [ZeroDivisionError] on a zero divisor,
      as Python's float division does.  Rounding is not modelled.
    - [cElementTree.XML] is the library's parser: the embedding starts from
      the element tree it returns.  [findall], [find], [get] and [text] are
      the library calls the source uses, for the child-tag paths it uses.
    - A string that may be [None] ([elt.get(...)], [elt.text]) is an
      [option string]; such values are the keys of the dicts and the
      members of the sets, as in the source.
    - A dict is a [gmap], a set a [gset], a list a [list]. *)

From Stdlib Require Import QArith Lqa.
From stdpp Require Import gmap strings list fin_maps.

#[local] Set Warnings "-register-all,-clear-no-such-hyp".

(** ** Exceptions and results *)

Inductive exn : Set :=
  | ZeroDivisionError
  | AssertionError
  | AttributeError.

Inductive result (A : Type) : Type :=
  | Ok (a : A)
  | Raise (e : exn).

Arguments Ok {A} a.
Arguments Raise {A} e.

#[global] Instance result_ret : MRet result := @Ok.

#[global] Instance result_bind : MBind result :=
  fun A B (k : A -> result B) (r : result A) =>
    match r with
    | Ok a => k a
    | Raise e => Raise e
    end.

(** A [for x in xs: body] loop over a state that the body updates in place;
    an exception raised by the body leaves the loop. *)
Fixpoint for_each {S X : Type} (body : S -> X -> result S) (st : S) (xs : list X)
  : result S :=
  match xs with
  | [] => Ok st
  | x :: xs' => st' ← body st x; for_each body st' xs'
  end.

(** A value that is a Python [str] or [None]. *)
Abbreviation pystr := (option string).

(** [d.setdefault(k, set()).add(v)]: the set stored at [k] (a fresh empty one,
    stored first, when [k] is not a key yet) gains the member [v]. *)
Definition setdefault_add (k v : pystr) (d : gmap pystr (gset pystr))
  : gmap pystr (gset pystr) :=
  <[ k := default ∅ (d !! k) ∪ {[ v ]} ]> d.

(** ** The Bayesian knowledge tracing estimator *)

Module BKTEstimator.

#[local] Open Scope Q_scope.

Record t : Set := __init__ { _p_learning : Q; _p_guess : Q; _p_slip : Q }.

(** [BKTEstimator()]: every keyword argument at its default, [0.0]. *)
Definition default : t := __init__ 0 0 0.

Definition get_standard_estimator : t := __init__ 0.1 0.3 0.2.

(** [x / y] on floats. *)
Definition truediv (x y : Q) : result Q :=
  if Qeq_bool y 0 then Raise ZeroDivisionError else Ok (x / y).

Definition get_posterior (self : t) (prior : Q) (is_correct : bool) : result Q :=
  let not_prior := 1 - prior in
  p ← (if is_correct then
         let p_not_slip := 1 - _p_slip self in
         truediv (prior * p_not_slip)
                 (prior * p_not_slip + not_prior * _p_guess self)
       else
         truediv (prior * _p_slip self)
                 (prior * _p_slip self + not_prior * (1 - _p_guess self)));
  Ok (p + (1 - p) * _p_learning self).

(** The divisor of the one division [get_posterior] performs. *)
Definition denominator (self : t) (prior : Q) (is_correct : bool) : Q :=
  if is_correct
  then prior * (1 - _p_slip self) + (1 - prior) * _p_guess self
  else prior * _p_slip self + (1 - prior) * (1 - _p_guess self).

(** The update as the specification writes it, from the three parameters. *)
Definition spec_p (guess slip prior : Q) (is_correct : bool) : Q :=
  if is_correct
  then prior * (1 - slip) / (prior * (1 - slip) + (1 - prior) * guess)
  else prior * slip / (prior * slip + (1 - prior) * (1 - guess)).

Definition spec_posterior (learning guess slip prior : Q) (is_correct : bool) : Q :=
  let p := spec_p guess slip prior is_correct in
  p + (1 - p) * learning.

End BKTEstimator.

(** ** Element trees *)

Inductive Element : Type :=
  mkElement {
    tag : string;
    attrib : gmap string string;
    text : option string;
    children : list Element
  }.

(** [elt.get(key)] *)
Definition get (elt : Element) (key : string) : pystr := attrib elt !! key.

(** [elt.findall('./t1/.../tn')]: the elements reached from [elt] through
    children tagged [t1], ..., [tn], in document order. *)
Fixpoint findall (path : list string) (elt : Element) : list Element :=
  match path with
  | [] => [elt]
  | step :: path' =>
      flat_map (findall path')
               (filter (fun child => tag child = step) (children elt))
  end.

(** [elt.find(path)]: the first match, or [None]. *)
Definition find (path : list string) (elt : Element) : option Element :=
  head (findall path elt).

(** ** Skills and objectives *)

Module Skill.
Record t : Set := __init__ { id : pystr; description : pystr }.
End Skill.

Module Objective.
Record t : Set := __init__ { id : pystr; description : pystr }.
End Objective.

Module SkillsMap.

Record t : Type :=
  mk {
    _objectives : list Objective.t;
    _objectives_by_id : gmap pystr Objective.t;
    _skills : list Skill.t;
    _skills_by_id : gmap pystr Skill.t;
    _skills_to_objectives_map : gmap pystr (gset pystr);
    _objectives_to_skills_map : gmap pystr (gset pystr)
  }.

Definition __init__ : t := mk [] ∅ [] ∅ ∅ ∅.

(** The body of [for skill_elt in root.findall('./skills/skill')]. *)
Definition add_skill (skills_map : t) (skill_elt : Element) : t :=
  let id_str := get skill_elt "id" in
  let description := text skill_elt in
  let skill := Skill.__init__ id_str description in
  mk (_objectives skills_map)
     (_objectives_by_id skills_map)
     (_skills skills_map ++ [skill])
     (<[ Skill.id skill := skill ]> (_skills_by_id skills_map))
     (_skills_to_objectives_map skills_map)
     (_objectives_to_skills_map skills_map).

(** The body of [for skill_elt in objective_elt.findall('./skills/skill')]. *)
Definition add_reference (objective : Objective.t) (skills_map : t)
    (skill_elt : Element) : result t :=
  let skill_id := get skill_elt "idref" in
  match _skills_by_id skills_map !! skill_id with
  | None => Raise AssertionError
  | Some _ =>
      Ok (mk (_objectives skills_map)
             (_objectives_by_id skills_map)
             (_skills skills_map)
             (_skills_by_id skills_map)
             (setdefault_add skill_id (Objective.id objective)
                (_skills_to_objectives_map skills_map))
             (setdefault_add (Objective.id objective) skill_id
                (_objectives_to_skills_map skills_map)))
  end.

(** The body of [for objective_elt in root.findall('./objectives/objective')];
    [.text] of a [find] that returned [None] raises [AttributeError]. *)
Definition add_objective (skills_map : t) (objective_elt : Element) : result t :=
  let id_str := get objective_elt "id" in
  description ← match find ["description"] objective_elt with
                | Some description_elt => Ok (text description_elt)
                | None => Raise AttributeError
                end;
  let objective := Objective.__init__ id_str description in
  let skills_map :=
    mk (_objectives skills_map ++ [objective])
       (<[ Objective.id objective := objective ]> (_objectives_by_id skills_map))
       (_skills skills_map)
       (_skills_by_id skills_map)
       (_skills_to_objectives_map skills_map)
       (_objectives_to_skills_map skills_map) in
  for_each (add_reference objective) skills_map
           (findall ["skills"; "skill"] objective_elt).

Definition from_xml (root : Element) : result t :=
  let skills_map := __init__ in
  let skills_map :=
    fold_left add_skill (findall ["skills"; "skill"] root) skills_map in
  for_each add_objective skills_map (findall ["objectives"; "objective"] root).

Definition objectives (self : t) : list Objective.t := _objectives self.

Definition get_objective_by_id (self : t) (id_str : pystr) : option Objective.t :=
  _objectives_by_id self !! id_str.

Definition skills (self : t) : list Skill.t := _skills self.

Definition get_skill_by_id (self : t) (id_str : pystr) : option Skill.t :=
  _skills_by_id self !! id_str.

Definition get_skills_for_objective (self : t) (objective_id : pystr) : gset pystr :=
  default ∅ (_objectives_to_skills_map self !! objective_id).

Definition get_objectives_for_skill (self : t) (skill_id : pystr) : gset pystr :=
  default ∅ (_skills_to_objectives_map self !! skill_id).

End SkillsMap.

(** ** Resources *)

Module ResourcesMap.

Record t : Type :=
  mk {
    _id : pystr;
    _skills_map : option SkillsMap.t;
    _skills_to_resources_map : gmap pystr (gset pystr);
    _resources_to_skills_map : gmap pystr (gset pystr);
    _resource_ids : list pystr
  }.

Definition __init__ (id_str : pystr) (skills_map : option SkillsMap.t) : t :=
  mk id_str skills_map ∅ ∅ [].

(** The body of [for skill_elt in resource_elt.findall('./skills/skill')]. *)
Definition add_reference (skills_map : option SkillsMap.t) (resource_id : pystr)
    (resources_map : t) (skill_elt : Element) : result t :=
  let skill_id := get skill_elt "idref" in
  let known :=
    match skills_map with
    | None => true
    | Some skills_map =>
        match SkillsMap.get_skill_by_id skills_map skill_id with
        | Some _ => true
        | None => false
        end
    end in
  if known then
    Ok (mk (_id resources_map)
           (_skills_map resources_map)
           (setdefault_add skill_id resource_id
              (_skills_to_resources_map resources_map))
           (setdefault_add resource_id skill_id
              (_resources_to_skills_map resources_map))
           (_resource_ids resources_map))
  else Raise AssertionError.

(** The body of [for resource_elt in root.findall('./resource')]. *)
Definition add_resource (skills_map : option SkillsMap.t) (resources_map : t)
    (resource_elt : Element) : result t :=
  let resource_id := get resource_elt "id" in
  let resources_map :=
    mk (_id resources_map)
       (_skills_map resources_map)
       (_skills_to_resources_map resources_map)
       (_resources_to_skills_map resources_map)
       (_resource_ids resources_map ++ [resource_id]) in
  for_each (add_reference skills_map resource_id) resources_map
           (findall ["skills"; "skill"] resource_elt).

Definition from_xml (root : Element) (skills_map : option SkillsMap.t) : result t :=
  let resources_map := __init__ (get root "id") skills_map in
  for_each (add_resource skills_map) resources_map (findall ["resource"] root).

Definition id (self : t) : pystr := _id self.

Definition resource_ids (self : t) : list pystr := _resource_ids self.

Definition get_skills_for_resource (self : t) (resource_id : pystr) : gset pystr :=
  default ∅ (_resources_to_skills_map self !! resource_id).

Definition get_objectives_for_resource (self : t) (resource_id : pystr)
  : result (gset pystr) :=
  match _skills_map self with
  | None => Raise AssertionError
  | Some skills_map =>
      let objectives : gset pystr := ∅ in
      Ok (foldl (fun objectives skill_id =>
                   objectives ∪ SkillsMap.get_objectives_for_skill skills_map skill_id)
                objectives
                (elements (get_skills_for_resource self resource_id)))
  end.

Definition get_resources_for_skill (self : t) (skill_id : pystr) : gset pystr :=
  default ∅ (_skills_to_resources_map self !! skill_id).

End ResourcesMap.

(** ** Sample estimators and documents *)

(** The estimator of [test_incorrect_answer_when_no_slipping]. *)
Definition no_slip_estimator : BKTEstimator.t :=
  BKTEstimator.__init__ 0.1 0.3 0.

(** The estimator of [test_correct_answer_when_no_guessing]. *)
Definition no_guess_estimator : BKTEstimator.t :=
  BKTEstimator.__init__ 0.1 0 0.2.

(** An element from its tag, attribute list, text and children. *)
Definition elt (tag : string) (attrs : list (string * string)) (text : option string)
    (children : list Element) : Element :=
  mkElement tag (list_to_map attrs) text children.

(** [<skill id="...">description</skill>] *)
Definition skill_decl (id description : string) : Element :=
  elt "skill" [("id", id)] (Some description) [].

(** [<skill idref="..."/>] *)
Definition skill_ref (idref : string) : Element :=
  elt "skill" [("idref", idref)] None [].

(** Three skills; objective [o1] groups [add] and [sub], objective [o2]
    groups [sub]; [mul] belongs to no objective. *)
Definition sample_skills_doc : Element :=
  elt "skills-map" [] None
    [ elt "skills" [] None
        [ skill_decl "add" "Addition"; skill_decl "sub" "Subtraction";
          skill_decl "mul" "Multiplication" ];
      elt "objectives" [] None
        [ elt "objective" [("id", "o1")] None
            [ elt "description" [] (Some "Add and subtract") [];
              elt "skills" [] None [skill_ref "add"; skill_ref "sub"] ];
          elt "objective" [("id", "o2")] None
            [ elt "description" [] (Some "Subtract") [];
              elt "skills" [] None [skill_ref "sub"] ] ] ].

(** Two skill elements that carry the same id. *)
Definition duplicate_skill_doc : Element :=
  elt "skills-map" [] None
    [ elt "skills" [] None
        [ skill_decl "add" "Addition"; skill_decl "add" "Adding fractions" ];
      elt "objectives" [] None [] ].

(** The document of [test_get_skills_for_objective_can_return_empty_set],
    its [description] element removed. *)
Definition no_description_doc : Element :=
  elt "skills-map" [] None
    [ elt "skills" [] None [];
      elt "objectives" [] None
        [ elt "objective" [("id", "objective-1")] None
            [ elt "skills" [] None [] ] ] ].

(** An objective that refers to a skill the document does not declare. *)
Definition unknown_skill_doc : Element :=
  elt "skills-map" [] None
    [ elt "skills" [] None [skill_decl "add" "Addition"];
      elt "objectives" [] None
        [ elt "objective" [("id", "o1")] None
            [ elt "description" [] (Some "Divide") [];
              elt "skills" [] None [skill_ref "add"; skill_ref "div"] ] ] ].

(** Two resources over the skills of [sample_skills_doc]. *)
Definition sample_resources_doc : Element :=
  elt "resources" [("id", "quiz")] None
    [ elt "resource" [("id", "q1")] None
        [ elt "skills" [] None [skill_ref "add"; skill_ref "sub"] ];
      elt "resource" [("id", "q2")] None
        [ elt "skills" [] None [skill_ref "mul"] ] ].

(** The document of [test_parse_rejects_invalid_skill_id]. *)
Definition bad_resources_doc : Element :=
  elt "resources" [("id", "resources_id")] None
    [ elt "resource" [("id", "resource_id")] None
        [ elt "skills" [] None [skill_ref "bad_id"] ] ].

(** The [SkillsMap] of [sample_skills_doc], or the empty one. *)
Definition sample_skills_map : SkillsMap.t :=
  match SkillsMap.from_xml sample_skills_doc with
  | Ok skills_map => skills_map
  | Raise _ => SkillsMap.__init__
  end.

(** The [ResourcesMap] of [sample_resources_doc], checked against
    [sample_skills_map], or the empty one. *)
Definition sample_resources_map : ResourcesMap.t :=
  match ResourcesMap.from_xml sample_resources_doc (Some sample_skills_map) with
  | Ok resources_map => resources_map
  | Raise _ => ResourcesMap.__init__ None None
  end.

(** The [ResourcesMap] of [sample_resources_doc], built without a skills map. *)
Definition unchecked_resources_map : ResourcesMap.t :=
  match ResourcesMap.from_xml sample_resources_doc None with
  | Ok resources_map => resources_map
  | Raise _ => ResourcesMap.__init__ None None
  end.

(** ** What a document declares and references *)

Definition skill_elts (root : Element) : list Element :=
  findall ["skills"; "skill"] root.

Definition objective_elts (root : Element) : list Element :=
  findall ["objectives"; "objective"] root.

Definition resource_elts (root : Element) : list Element :=
  findall ["resource"] root.

(** The [Skill] the source builds from a [skill] element. *)
Definition skill_of_elt (skill_elt : Element) : Skill.t :=
  Skill.__init__ (get skill_elt "id") (text skill_elt).

(** The ids of the skills section, in document order. *)
Definition declared_skill_ids (root : Element) : list pystr :=
  (fun skill_elt => get skill_elt "id") <$> skill_elts root.

(** The skill ids an objective element, or a resource element, refers to. *)
Definition referenced_skill_ids (parent_elt : Element) : list pystr :=
  (fun skill_elt => get skill_elt "idref") <$> findall ["skills"; "skill"] parent_elt.

(** Every skill an objective of the document refers to is declared in its
    skills section. *)
Definition references_declared (root : Element) : Prop :=
  Forall (fun objective_elt =>
            Forall (fun skill_id => skill_id ∈ declared_skill_ids root)
                   (referenced_skill_ids objective_elt))
         (objective_elts root).

(** The objective element has a [description] sub-element. *)
Definition has_description (objective_elt : Element) : Prop :=
  is_Some (find ["description"] objective_elt).

(** Some objective of the document refers to a skill that its skills section
    does not declare. *)
Definition undeclared_reference (root : Element) : Prop :=
  Exists (fun objective_elt =>
            Exists (fun skill_id => skill_id ∉ declared_skill_ids root)
                   (referenced_skill_ids objective_elt))
         (objective_elts root).

(** Some resource of the document refers to a skill that is not in the lookup
    of [skills_map]. *)
Definition unknown_reference (skills_map : SkillsMap.t) (root : Element) : Prop :=
  Exists (fun resource_elt =>
            Exists (fun skill_id =>
                      SkillsMap.get_skill_by_id skills_map skill_id = None)
                   (referenced_skill_ids resource_elt))
         (resource_elts root).

(** The two adjacency dicts hold the same edges. *)
Definition inverse_maps (forward backward : gmap pystr (gset pystr)) : Prop :=
  forall a b : pystr,
    b ∈ default (∅ : gset pystr) (forward !! a) <->
    a ∈ default (∅ : gset pystr) (backward !! b).

(** ** Invariants of the construction *)

Module SkillsMapInv.

Import SkillsMap.

(** The id lookup holds, at each id, the last skill of the sequence that
    carries it. *)
Definition lookup_is_last (m : t) : Prop :=
  forall k : pystr,
    _skills_by_id m !! k = last (filter (fun s => Skill.id s = k) (_skills m)).

(** The keys of the id lookup are the ids of the sequence. *)
Definition lookup_keys (m : t) : Prop :=
  forall k : pystr, is_Some (_skills_by_id m !! k) <-> k ∈ (Skill.id <$> _skills m).

(** What the objectives loops leave as they found it. *)
Definition same_skills (m0 m : t) : Prop :=
  _skills m = _skills m0 /\ _skills_by_id m = _skills_by_id m0.

(** The two adjacency dicts of a [SkillsMap] hold the same edges. *)
Definition inverse (m : t) : Prop :=
  inverse_maps (_skills_to_objectives_map m) (_objectives_to_skills_map m).

(** The state [from_xml] enters the objectives loop with. *)
Definition after_skills (root : Element) : t :=
  fold_left add_skill (skill_elts root) __init__.

End SkillsMapInv.

Module ResourcesMapInv.

Import ResourcesMap.

(** What the loops of [ResourcesMap.from_xml] keep: the two adjacency dicts
    hold the same edges, and the reference to the skills map is the one
    given. *)
Definition inverse (skills_map : option SkillsMap.t) (m : t) : Prop :=
  inverse_maps (_skills_to_resources_map m) (_resources_to_skills_map m) /\
  _skills_map m = skills_map.

End ResourcesMapInv.

(** ** Further views of a document *)

(** The [Objective] the source builds from an [objective] element that has
    a [description] sub-element. *)
Definition objective_of_elt (objective_elt : Element) : Objective.t :=
  Objective.__init__ (get objective_elt "id")
                     (find ["description"] objective_elt ≫= text).

(** The ids of the objectives section, in document order. *)
Definition declared_objective_ids (root : Element) : list pystr :=
  (fun objective_elt => get objective_elt "id") <$> objective_elts root.

(** Some objective element with id [o] refers to the skill [s]. *)
Definition objective_edge (root : Element) (s o : pystr) : Prop :=
  exists objective_elt,
    objective_elt ∈ objective_elts root /\
    get objective_elt "id" = o /\ s ∈ referenced_skill_ids objective_elt.

(** Some resource element with id [r] refers to the skill [s]. *)
Definition resource_edge (root : Element) (s r : pystr) : Prop :=
  exists resource_elt,
    resource_elt ∈ resource_elts root /\
    get resource_elt "id" = r /\ s ∈ referenced_skill_ids resource_elt.

(** The estimator's three parameters are probabilities. *)
Definition valid_estimator (self : BKTEstimator.t) : Prop :=
  ((0 <= BKTEstimator._p_learning self)%Q /\ (BKTEstimator._p_learning self <= 1)%Q) /\
  ((0 <= BKTEstimator._p_guess self)%Q /\ (BKTEstimator._p_guess self <= 1)%Q) /\
  ((0 <= BKTEstimator._p_slip self)%Q /\ (BKTEstimator._p_slip self <= 1)%Q).

(** The same map, without its reference to a skills map. *)
Definition unchecked (m : ResourcesMap.t) : ResourcesMap.t :=
  ResourcesMap.mk (ResourcesMap._id m) None
                  (ResourcesMap._skills_to_resources_map m)
                  (ResourcesMap._resources_to_skills_map m)
                  (ResourcesMap._resource_ids m).

(** ** The student mock-up ([models/models.py])

    A property value is [None] or an object of a type [V] that the mock-up
    never looks into. *)

Module Student.

Record t (V : Type) : Type := mk { properties : gmap pystr (option V) }.
Arguments mk {V} properties.
Arguments properties {V} _.

Definition __init__ {V : Type} : t V := mk ∅.

Definition get {V : Type} (self : t V) (key : pystr) (default : option V) : option V :=
  match properties self !! key with
  | Some value => value
  | None => default
  end.

Definition setitem {V : Type} (self : t V) (key : pystr) (value : option V) : t V :=
  mk (<[ key := value ]> (properties self)).

End Student.

Module StudentPropertyEntity.

Record t (V : Type) : Type := mk { students : gmap pystr (Student.t V) }.
Arguments mk {V} students.
Arguments students {V} _.

Definition __init__ {V P : Type} (params : P) : t V := mk ∅.

(** [self.students[student]] raises [KeyError] for an unknown student, and
    the handler returns [None]; for a known student the property is looked
    up, the value is not returned, and the method ends, which returns
    [None] too. *)
Definition get {V : Type} (self : t V) (student property_key : pystr) : option V :=
  match students self !! student with
  | None => None
  | Some the_student =>
      let _ := Student.get the_student property_key None in
      None
  end.

End StudentPropertyEntity.

(** * The embedding replays the source's unit tests *)

(** [test_incorrect_answer_when_no_slipping], at prior [0.5]. *)
Example incorrect_answer_when_no_slipping :
  exists r : Q,
    BKTEstimator.get_posterior no_slip_estimator 0.5 false = Ok r /\ (r == 0.1)%Q.
Proof. eexists. split; reflexivity. Qed.

(** [test_probabilities_between_0_and_1], at prior [0.5]. *)
Example probabilities_between_0_and_1 :
  exists r s : Q,
    BKTEstimator.get_posterior BKTEstimator.get_standard_estimator 0.5 true = Ok r /\
    BKTEstimator.get_posterior BKTEstimator.get_standard_estimator 0.5 false = Ok s /\
    (0 < r)%Q /\ (r < 1)%Q /\ (0 < s)%Q /\ (s < 1)%Q.
Proof. do 2 eexists. repeat split; reflexivity. Qed.

(** Settles a conjunction of closed equations by evaluation. *)
Ltac evaluate :=
  repeat match goal with |- _ /\ _ => split end; vm_compute; reflexivity.

(** The lookups of [SkillsMapTests], on [sample_skills_doc]. *)
Example sample_skills_doc_lookups :
  SkillsMap.from_xml sample_skills_doc = Ok sample_skills_map /\
  length (SkillsMap.skills sample_skills_map) = 3%nat /\
  length (SkillsMap.objectives sample_skills_map) = 2%nat /\
  SkillsMap.get_skill_by_id sample_skills_map (Some "sub")
  = Some (Skill.__init__ (Some "sub") (Some "Subtraction")) /\
  SkillsMap.get_skill_by_id sample_skills_map (Some "bad_key") = None /\
  SkillsMap.get_objective_by_id sample_skills_map (Some "bad_key") = None /\
  SkillsMap.get_skills_for_objective sample_skills_map (Some "o1")
  = {[ Some "add"; Some "sub" ]} /\
  SkillsMap.get_objectives_for_skill sample_skills_map (Some "sub")
  = {[ Some "o1"; Some "o2" ]} /\
  SkillsMap.get_objectives_for_skill sample_skills_map (Some "mul") = ∅.
Proof. evaluate. Qed.

(** The lookups of [ResourcesMapTests], on [sample_resources_doc]. *)
Example sample_resources_doc_lookups :
  ResourcesMap.from_xml sample_resources_doc (Some sample_skills_map)
  = Ok sample_resources_map /\
  ResourcesMap.id sample_resources_map = Some "quiz" /\
  ResourcesMap.resource_ids sample_resources_map = [Some "q1"; Some "q2"] /\
  ResourcesMap.get_skills_for_resource sample_resources_map (Some "q1")
  = {[ Some "add"; Some "sub" ]} /\
  ResourcesMap.get_resources_for_skill sample_resources_map (Some "mul")
  = {[ Some "q2" ]} /\
  ResourcesMap.get_objectives_for_resource sample_resources_map (Some "q2") = Ok ∅.
Proof. evaluate. Qed.

(** [test_parse_rejects_invalid_skill_id], and the same document parsed
    without a skills map. *)
Example parse_rejects_invalid_skill_id :
  ResourcesMap.from_xml bad_resources_doc (Some sample_skills_map)
  = Raise AssertionError /\
  ResourcesMap.from_xml bad_resources_doc None
  = Ok (ResourcesMap.mk (Some "resources_id") None
          {[ Some "bad_id" := {[ Some "resource_id" ]} ]}
          {[ Some "resource_id" := {[ Some "bad_id" ]} ]}
          [Some "resource_id"]).
Proof. evaluate. Qed.

(** [test_get_objectives_for_resource_rejected_if_skill_map_missing]. *)
Example get_objectives_for_resource_rejected_if_skill_map_missing :
  ResourcesMap.from_xml sample_resources_doc None = Ok unchecked_resources_map /\
  ResourcesMap.get_objectives_for_resource unchecked_resources_map (Some "q1")
  = Raise AssertionError.
Proof. evaluate. Qed.

(** * Properties of the estimator *)

Section Estimator.

#[local] Open Scope Q_scope.
Import BKTEstimator.

Lemma truediv_nonzero (x y : Q) : ~ y == 0 -> truediv x y = Ok (x / y).
Proof.
  intros Hy. unfold truediv.
  destruct (Qeq_bool y 0) eqn:E; [|reflexivity].
  apply Qeq_bool_iff in E. contradiction.
Qed.

Lemma truediv_zero (x y : Q) : y == 0 -> truediv x y = Raise ZeroDivisionError.
Proof.
  intros Hy. unfold truediv.
  apply Qeq_bool_iff in Hy. now rewrite Hy.
Qed.

(** [get_posterior] divides once, by [denominator]. *)
Lemma get_posterior_division (self : t) (prior : Q) (is_correct : bool) :
  get_posterior self prior is_correct =
  (p ← truediv (if is_correct then prior * (1 - _p_slip self)
                else prior * _p_slip self)
               (denominator self prior is_correct);
   Ok (p + (1 - p) * _p_learning self)).
Proof. destruct is_correct; reflexivity. Qed.

(** The standard estimator's divisor, for a prior in [[0,1]]. *)
Lemma standard_denominator_bounds (prior : Q) :
  0 <= prior <= 1 ->
  0.3 <= denominator get_standard_estimator prior true /\
  0.2 <= denominator get_standard_estimator prior false.
Proof.
  intros [H0 H1]. unfold denominator, get_standard_estimator; simpl.
  split; lra.
Qed.

End Estimator.

(** C1: for every estimator, prior and correctness flag at which the divisor
    is not zero, [get_posterior] returns [p + (1 - p) * learning], where [p]
    is [prior*(1-slip) / (prior*(1-slip) + (1-prior)*guess)] for a correct
    answer and [prior*slip / (prior*slip + (1-prior)*(1-guess))] for an
    incorrect one. *)
Theorem get_posterior_formula (self : BKTEstimator.t) (prior : Q) (is_correct : bool) :
  ~ (BKTEstimator.denominator self prior is_correct == 0)%Q ->
  BKTEstimator.get_posterior self prior is_correct =
  Ok (BKTEstimator.spec_posterior
        (BKTEstimator._p_learning self) (BKTEstimator._p_guess self)
        (BKTEstimator._p_slip self) prior is_correct).
Proof.
  intros Hd. rewrite get_posterior_division, (truediv_nonzero _ _ Hd).
  destruct is_correct; reflexivity.
Qed.

Lemma get_posterior_formula_witness :
  BKTEstimator.get_posterior BKTEstimator.get_standard_estimator 0.5 false =
  Ok (BKTEstimator.spec_posterior 0.1 0.3 0.2 0.5 false).
Proof.
  apply (get_posterior_formula BKTEstimator.get_standard_estimator 0.5 false).
  intros E; vm_compute in E; discriminate.
Defined.

(** C2 as stated fails: at the default estimator, prior [0] and a correct
    answer, the divisor is zero and the call raises [ZeroDivisionError]; it
    does not return the prior. *)
Lemma get_posterior_zero_divisor_raises :
  (BKTEstimator.denominator BKTEstimator.default 0 true == 0)%Q /\
  BKTEstimator.get_posterior BKTEstimator.default 0 true = Raise ZeroDivisionError /\
  BKTEstimator.get_posterior BKTEstimator.default 0 true <> Ok 0%Q.
Proof. split; [reflexivity | split; [reflexivity | discriminate]]. Qed.

(** C2, amended: for every estimator, prior and correctness flag at which
    the divisor is zero, [get_posterior] raises [ZeroDivisionError]: the
    division is not guarded and no value is returned. *)
Theorem get_posterior_unguarded (self : BKTEstimator.t) (prior : Q) (is_correct : bool) :
  (BKTEstimator.denominator self prior is_correct == 0)%Q ->
  BKTEstimator.get_posterior self prior is_correct = Raise ZeroDivisionError.
Proof.
  intros Hd. rewrite get_posterior_division, (truediv_zero _ _ Hd). reflexivity.
Qed.

Lemma get_posterior_unguarded_witness :
  BKTEstimator.get_posterior BKTEstimator.default 1 false = Raise ZeroDivisionError.
Proof.
  apply (get_posterior_unguarded BKTEstimator.default 1 false). reflexivity.
Defined.

(** C3 as stated fails: with slip [0] but guess [0.3] (and learning [0.1]),
    a correct answer at prior [0.5] gives [103/130], not [1]. *)
Lemma get_posterior_no_slip_correct_not_one :
  BKTEstimator._p_slip no_slip_estimator = 0%Q /\
  exists r : Q,
    BKTEstimator.get_posterior no_slip_estimator 0.5 true = Ok r /\
    (r == 103 # 130)%Q /\ ~ (r == 1)%Q.
Proof.
  split; [reflexivity|]. eexists. split; [reflexivity|].
  split; [reflexivity | intros E; vm_compute in E; discriminate].
Qed.

(** C3, amended: for every estimator whose guess parameter is [0] and whose
    slip parameter is not [1] (slip [0] included), and every prior strictly
    between [0] and [1], [get_posterior prior True] is [1]. *)
Theorem get_posterior_no_guess_correct (self : BKTEstimator.t) (prior : Q) :
  (BKTEstimator._p_guess self == 0)%Q ->
  ~ (BKTEstimator._p_slip self == 1)%Q ->
  (0 < prior)%Q -> (prior < 1)%Q ->
  exists r : Q,
    BKTEstimator.get_posterior self prior true = Ok r /\ (r == 1)%Q.
Proof.
  intros Hg Hs H0 H1.
  assert (Hn : ~ (prior * (1 - BKTEstimator._p_slip self) == 0)%Q).
  { intros E. apply Qmult_integral in E as [E|E]; [lra|]. apply Hs. lra. }
  assert (Hd : ~ (BKTEstimator.denominator self prior true == 0)%Q).
  { unfold BKTEstimator.denominator. rewrite Hg. intros E. apply Hn. lra. }
  rewrite get_posterior_division, (truediv_nonzero _ _ Hd). simpl.
  eexists. split; [reflexivity|].
  unfold BKTEstimator.denominator. rewrite Hg. field.
  split; intros E; [apply Hs|]; lra.
Qed.

Lemma get_posterior_no_guess_correct_witness :
  exists r : Q,
    BKTEstimator.get_posterior no_guess_estimator 0.5 true = Ok r /\ (r == 1)%Q.
Proof.
  apply (get_posterior_no_guess_correct no_guess_estimator 0.5);
    [reflexivity | intros E; vm_compute in E; discriminate
    | reflexivity | reflexivity].
Defined.

(** C10: for the standard estimator and every prior in [[0,1]], the divisor
    in [get_posterior] is at least [0.3] for a correct answer and at least
    [0.2] for an incorrect one, so it is not zero and [get_posterior]
    returns a value for both correctness flags. *)
Theorem standard_estimator_never_divides_by_zero (prior : Q) :
  (0 <= prior)%Q -> (prior <= 1)%Q ->
  (0.3 <= BKTEstimator.denominator BKTEstimator.get_standard_estimator prior true)%Q /\
  (0.2 <= BKTEstimator.denominator BKTEstimator.get_standard_estimator prior false)%Q /\
  forall is_correct : bool,
    (0 < BKTEstimator.denominator BKTEstimator.get_standard_estimator prior is_correct)%Q /\
    exists r : Q,
      BKTEstimator.get_posterior BKTEstimator.get_standard_estimator prior is_correct
      = Ok r.
Proof.
  intros H0 H1.
  destruct (standard_denominator_bounds prior (conj H0 H1)) as [Ht Hf].
  split; [exact Ht | split; [exact Hf|]].
  intros is_correct.
  assert (Hpos : (0 < BKTEstimator.denominator
                         BKTEstimator.get_standard_estimator prior is_correct)%Q).
  { destruct is_correct; lra. }
  split; [exact Hpos|].
  rewrite get_posterior_division, truediv_nonzero by lra.
  eexists. reflexivity.
Qed.

Lemma standard_estimator_never_divides_by_zero_witness :
  (0.3 <= BKTEstimator.denominator BKTEstimator.get_standard_estimator 0 true)%Q /\
  (0.2 <= BKTEstimator.denominator BKTEstimator.get_standard_estimator 0 false)%Q /\
  forall is_correct : bool,
    (0 < BKTEstimator.denominator BKTEstimator.get_standard_estimator 0 is_correct)%Q /\
    exists r : Q,
      BKTEstimator.get_posterior BKTEstimator.get_standard_estimator 0 is_correct
      = Ok r.
Proof.
  apply (standard_estimator_never_divides_by_zero 0); discriminate.
Defined.

(** * Loops that may raise *)

Lemma bind_Ok {A B : Type} (a : A) (k : A -> result B) : (Ok a ≫= k) = k a.
Proof. reflexivity. Qed.

Lemma bind_Raise {A B : Type} (e : exn) (k : A -> result B) :
  (Raise e ≫= k) = Raise e.
Proof. reflexivity. Qed.

Lemma fold_left_invariant {S X : Type} (f : S -> X -> S) (P : S -> Prop) :
  (forall st x, P st -> P (f st x)) ->
  forall xs st, P st -> P (fold_left f xs st).
Proof.
  intros Hf xs. induction xs as [|x xs IH]; simpl; intros st HP; auto.
Qed.

Section Loops.

Context {S X : Type} (body : S -> X -> result S).

Lemma for_each_cons (st : S) (x : X) (xs : list X) :
  for_each body st (x :: xs) = (body st x ≫= fun st' => for_each body st' xs).
Proof. reflexivity. Qed.

(** A property of the state that every successful pass keeps holds when the
    loop ends. *)
Lemma for_each_invariant (P : S -> Prop) :
  (forall st x st', P st -> body st x = Ok st' -> P st') ->
  forall xs st st', P st -> for_each body st xs = Ok st' -> P st'.
Proof.
  intros Hbody xs. induction xs as [|x xs IH]; intros st st' HP Hrun.
  - simpl in Hrun. injection Hrun as <-. exact HP.
  - rewrite for_each_cons in Hrun.
    destruct (body st x) as [st1|e] eqn:E; [|discriminate].
    rewrite bind_Ok in Hrun. eapply IH; [|exact Hrun]. eapply Hbody; eauto.
Qed.

(** An element on which the body raises whatever the state makes the loop
    raise. *)
Lemma for_each_raises (xs : list X) :
  Exists (fun x => forall st, exists e, body st x = Raise e) xs ->
  forall st, exists e, for_each body st xs = Raise e.
Proof.
  induction 1 as [x xs Hx | x xs _ IH]; intros st; rewrite for_each_cons.
  - destruct (Hx st) as [e ->]. exists e. reflexivity.
  - destruct (body st x) as [st1|e]; [apply IH | exists e; reflexivity].
Qed.

Variable Inv : S -> Prop.
Variables ok bad : X -> Prop.
Variable e : exn.

Hypothesis body_ok :
  forall st x, Inv st -> ok x -> exists st', body st x = Ok st' /\ Inv st'.
Hypothesis body_bad :
  forall st x, Inv st -> bad x -> body st x = Raise e.

Lemma for_each_all_ok (xs : list X) :
  Forall ok xs ->
  forall st, Inv st -> exists st', for_each body st xs = Ok st' /\ Inv st'.
Proof.
  induction 1 as [|x xs Hx _ IH]; intros st HI.
  - exists st. split; [reflexivity | exact HI].
  - destruct (body_ok st x HI Hx) as (st1 & E & HI1).
    rewrite for_each_cons, E, bind_Ok. apply IH, HI1.
Qed.

Lemma for_each_some_bad (xs : list X) :
  Forall (fun x => ok x \/ bad x) xs -> Exists bad xs ->
  forall st, Inv st -> for_each body st xs = Raise e.
Proof.
  induction 1 as [|x xs Hx _ IH]; intros Hbad st HI.
  - inversion Hbad.
  - rewrite for_each_cons.
    destruct Hx as [Hx|Hx]; [|rewrite (body_bad st x HI Hx); reflexivity].
    apply Exists_cons in Hbad as [Hb|Hb];
      [rewrite (body_bad st x HI Hb); reflexivity|].
    destruct (body_ok st x HI Hx) as (st1 & E & HI1).
    rewrite E, bind_Ok. apply IH; assumption.
Qed.

End Loops.

(** * The adjacency dicts *)

Lemma elem_of_setdefault_add (k v k' x : pystr) (d : gmap pystr (gset pystr)) :
  x ∈ default (∅ : gset pystr) (setdefault_add k v d !! k') <->
  (k' = k /\ x = v) \/ x ∈ default (∅ : gset pystr) (d !! k').
Proof.
  unfold setdefault_add. destruct (decide (k = k')) as [->|Hne].
  - rewrite lookup_insert_eq. simpl. set_solver.
  - rewrite lookup_insert_ne by exact Hne. naive_solver.
Qed.

Lemma inverse_maps_empty : inverse_maps ∅ ∅.
Proof. intros a b. rewrite !lookup_empty. simpl. set_solver. Qed.

Lemma inverse_maps_add (a b : pystr) (forward backward : gmap pystr (gset pystr)) :
  inverse_maps forward backward ->
  inverse_maps (setdefault_add a b forward) (setdefault_add b a backward).
Proof.
  intros H a' b'. rewrite !elem_of_setdefault_add, (H a' b'). naive_solver.
Qed.

(** * Properties of [SkillsMap.from_xml] *)

Section SkillsMapFacts.

Import SkillsMap SkillsMapInv.

(** ** The loop over the skills section *)

Lemma add_skills_fields (elts : list Element) (m : t) :
  _skills (fold_left add_skill elts m) = _skills m ++ (skill_of_elt <$> elts) /\
  _objectives (fold_left add_skill elts m) = _objectives m /\
  _objectives_by_id (fold_left add_skill elts m) = _objectives_by_id m /\
  _skills_to_objectives_map (fold_left add_skill elts m) = _skills_to_objectives_map m /\
  _objectives_to_skills_map (fold_left add_skill elts m) = _objectives_to_skills_map m.
Proof.
  revert m. induction elts as [|x elts IH]; intros m; simpl.
  - rewrite app_nil_r. auto.
  - destruct (IH (add_skill m x)) as (-> & -> & -> & -> & ->). simpl.
    rewrite <- app_assoc. auto.
Qed.

Lemma lookup_is_last_add_skill (m : t) (x : Element) :
  lookup_is_last m -> lookup_is_last (add_skill m x).
Proof.
  intros H k. unfold add_skill; simpl. rewrite filter_app.
  destruct (decide (get x "id" = k)) as [E|E].
  - rewrite filter_cons_True, filter_nil by exact E. simpl. subst k.
    rewrite lookup_insert_eq, last_snoc. reflexivity.
  - rewrite filter_cons_False, filter_nil by exact E. simpl.
    rewrite lookup_insert_ne, app_nil_r by exact E. apply H.
Qed.

Lemma lookup_keys_add_skill (m : t) (x : Element) :
  lookup_keys m -> lookup_keys (add_skill m x).
Proof.
  intros H k. unfold add_skill; simpl.
  rewrite fmap_app, elem_of_app, lookup_insert_is_Some, <- (H k). simpl.
  rewrite list_elem_of_singleton.
  destruct (decide (get x "id" = k)); naive_solver.
Qed.

(** ** The loops over the objectives section *)

Lemma add_reference_same_skills (objective : Objective.t) (m0 m m' : t) (x : Element) :
  same_skills m0 m -> add_reference objective m x = Ok m' -> same_skills m0 m'.
Proof.
  unfold add_reference. intros H E.
  destruct (_skills_by_id m !! get x "idref"); [|discriminate].
  injection E as <-. exact H.
Qed.

Lemma add_objective_same_skills (m0 m m' : t) (x : Element) :
  same_skills m0 m -> add_objective m x = Ok m' -> same_skills m0 m'.
Proof.
  unfold add_objective. intros H E.
  destruct (find ["description"] x) as [d|]; [|discriminate].
  rewrite bind_Ok in E.
  eapply (for_each_invariant _ (same_skills m0)); [|idtac|exact E].
  - intros st y st'. apply add_reference_same_skills.
  - exact H.
Qed.

Lemma add_reference_inverse (objective : Objective.t) (m m' : t) (x : Element) :
  inverse m -> add_reference objective m x = Ok m' -> inverse m'.
Proof.
  unfold add_reference, inverse. intros H E.
  destruct (_skills_by_id m !! get x "idref"); [|discriminate].
  injection E as <-. simpl. apply inverse_maps_add, H.
Qed.

Lemma add_objective_inverse (m m' : t) (x : Element) :
  inverse m -> add_objective m x = Ok m' -> inverse m'.
Proof.
  unfold add_objective. intros H E.
  destruct (find ["description"] x) as [d|]; [|discriminate].
  rewrite bind_Ok in E.
  eapply (for_each_invariant _ inverse); [|idtac|exact E].
  - intros st y st'. apply add_reference_inverse.
  - exact H.
Qed.

Lemma from_xml_unfold (root : Element) :
  from_xml root = for_each add_objective (after_skills root) (objective_elts root).
Proof. reflexivity. Qed.

Lemma after_skills_skills (root : Element) :
  _skills (after_skills root) = skill_of_elt <$> skill_elts root.
Proof. unfold after_skills. now rewrite (proj1 (add_skills_fields _ _)). Qed.

Lemma after_skills_lookup_is_last (root : Element) : lookup_is_last (after_skills root).
Proof.
  unfold after_skills.
  apply fold_left_invariant; [intros st x; apply lookup_is_last_add_skill|].
  intros k. reflexivity.
Qed.

Lemma after_skills_lookup_keys (root : Element) (k : pystr) :
  is_Some (_skills_by_id (after_skills root) !! k) <-> k ∈ declared_skill_ids root.
Proof.
  assert (H : lookup_keys (after_skills root)).
  { unfold after_skills.
    apply fold_left_invariant; [intros st x; apply lookup_keys_add_skill|].
    intros k'. simpl. rewrite lookup_empty, elem_of_nil.
    split; [intros [? ?]; discriminate | tauto]. }
  rewrite (H k), after_skills_skills. unfold declared_skill_ids.
  rewrite <- list_fmap_compose. reflexivity.
Qed.

Lemma after_skills_inverse (root : Element) : inverse (after_skills root).
Proof.
  unfold inverse, after_skills.
  destruct (add_skills_fields (skill_elts root) __init__) as (_ & _ & _ & -> & ->).
  apply inverse_maps_empty.
Qed.

Lemma from_xml_same_skills (root : Element) (m : t) :
  from_xml root = Ok m -> same_skills (after_skills root) m.
Proof.
  rewrite from_xml_unfold. intros E.
  eapply (for_each_invariant _ (same_skills (after_skills root))); [|idtac|exact E].
  - intros st x st'. apply add_objective_same_skills.
  - split; reflexivity.
Qed.

Lemma from_xml_inverse (root : Element) (m : t) :
  from_xml root = Ok m -> inverse m.
Proof.
  rewrite from_xml_unfold. intros E.
  eapply (for_each_invariant _ inverse); [|idtac|exact E].
  - intros st x st'. apply add_objective_inverse.
  - apply after_skills_inverse.
Qed.

End SkillsMapFacts.

(** ** When [SkillsMap.from_xml] returns and when it raises *)

Lemma Forall_or_Exists {X : Type} (ok bad : X -> Prop) (xs : list X) :
  Forall (fun x => ok x \/ bad x) xs -> Forall ok xs \/ Exists bad xs.
Proof.
  induction 1 as [|x xs [Hx|Hx] _ [IH|IH]]; auto.
Qed.

Section SkillsMapOutcome.

Import SkillsMap SkillsMapInv.

Variable m0 : t.

(** The reference is to a key of the id lookup of [m0]. *)
Let declared (skill_elt : Element) : Prop :=
  is_Some (_skills_by_id m0 !! get skill_elt "idref").

Let undeclared (skill_elt : Element) : Prop :=
  _skills_by_id m0 !! get skill_elt "idref" = None.

Lemma declared_or_undeclared (xs : list Element) :
  Forall (fun x => declared x \/ undeclared x) xs.
Proof.
  apply Forall_forall. intros x _. unfold declared, undeclared.
  destruct (_skills_by_id m0 !! get x "idref"); eauto.
Qed.

Lemma add_reference_declared (objective : Objective.t) (m : t) (x : Element) :
  same_skills m0 m -> declared x ->
  exists m', add_reference objective m x = Ok m' /\ same_skills m0 m'.
Proof.
  intros [H1 H2] [s Hs]. unfold add_reference. rewrite H2, Hs.
  eexists. split; [reflexivity | split; [exact H1 | reflexivity]].
Qed.

Lemma add_reference_undeclared (objective : Objective.t) (m : t) (x : Element) :
  same_skills m0 m -> undeclared x ->
  add_reference objective m x = Raise AssertionError.
Proof.
  intros H Hx. unfold add_reference. rewrite (proj2 H), Hx. reflexivity.
Qed.

(** An objective element the loop passes: it has a description and refers
    to declared skills only. *)
Let passes (objective_elt : Element) : Prop :=
  has_description objective_elt /\
  Forall declared (findall ["skills"; "skill"] objective_elt).

(** An objective element with a description and an undeclared reference. *)
Let dangles (objective_elt : Element) : Prop :=
  has_description objective_elt /\
  Exists undeclared (findall ["skills"; "skill"] objective_elt).

Lemma add_objective_passes (m : t) (x : Element) :
  same_skills m0 m -> passes x ->
  exists m', add_objective m x = Ok m' /\ same_skills m0 m'.
Proof.
  intros H [[d Hd] Hrefs]. unfold add_objective. rewrite Hd, bind_Ok.
  eapply (for_each_all_ok _ (same_skills m0) declared); [|exact Hrefs|exact H].
  intros st y. apply add_reference_declared.
Qed.

Lemma add_objective_dangles (m : t) (x : Element) :
  same_skills m0 m -> dangles x -> add_objective m x = Raise AssertionError.
Proof.
  intros H [[d Hd] Hrefs]. unfold add_objective. rewrite Hd, bind_Ok.
  eapply (for_each_some_bad _ (same_skills m0) declared undeclared);
    [| |apply declared_or_undeclared|exact Hrefs|exact H].
  - intros st y. apply add_reference_declared.
  - intros st y. apply add_reference_undeclared.
Qed.

Lemma add_objective_no_description (m : t) (x : Element) :
  ~ has_description x -> add_objective m x = Raise AttributeError.
Proof.
  unfold has_description, add_objective. intros H.
  destruct (find ["description"] x); [|reflexivity].
  exfalso. apply H. eauto.
Qed.

Lemma add_objectives_pass (xs : list Element) (m : t) :
  same_skills m0 m -> Forall passes xs ->
  exists m', for_each add_objective m xs = Ok m' /\ same_skills m0 m'.
Proof.
  intros H Hxs.
  eapply (for_each_all_ok _ (same_skills m0) passes); [|exact Hxs|exact H].
  intros st y. apply add_objective_passes.
Qed.

Lemma add_objectives_dangle (xs : list Element) (m : t) :
  same_skills m0 m -> Forall has_description xs -> Exists dangles xs ->
  for_each add_objective m xs = Raise AssertionError.
Proof.
  intros H Hdesc Hxs.
  eapply (for_each_some_bad _ (same_skills m0) passes dangles);
    [| | |exact Hxs|exact H].
  - intros st y. apply add_objective_passes.
  - intros st y. apply add_objective_dangles.
  - eapply Forall_impl; [exact Hdesc|]. intros x Hx. unfold passes, dangles.
    destruct (Forall_or_Exists _ _ _
                (declared_or_undeclared (findall ["skills"; "skill"] x))); auto.
Qed.

Lemma add_objectives_no_description (xs : list Element) (m : t) :
  same_skills m0 m ->
  Forall (fun x => Forall declared (findall ["skills"; "skill"] x)) xs ->
  Exists (fun x => ~ has_description x) xs ->
  for_each add_objective m xs = Raise AttributeError.
Proof.
  intros H Hrefs Hxs.
  eapply (for_each_some_bad _ (same_skills m0) passes (fun x => ~ has_description x));
    [| | |exact Hxs|exact H].
  - intros st y. apply add_objective_passes.
  - intros st y _. apply add_objective_no_description.
  - eapply Forall_impl; [exact Hrefs|]. intros x Hx. unfold passes.
    destruct (decide (has_description x)); auto.
Qed.

End SkillsMapOutcome.

Section SkillsMapFromXml.

Import SkillsMap SkillsMapInv.

Variable root : Element.

Lemma declared_refs (objective_elt : Element) :
  Forall (fun skill_id => skill_id ∈ declared_skill_ids root)
         (referenced_skill_ids objective_elt) ->
  Forall (fun skill_elt =>
            is_Some (_skills_by_id (after_skills root) !! get skill_elt "idref"))
         (findall ["skills"; "skill"] objective_elt).
Proof.
  unfold referenced_skill_ids. rewrite Forall_fmap. intros H.
  eapply Forall_impl; [exact H|]. intros x Hx.
  apply after_skills_lookup_keys, Hx.
Qed.

Lemma undeclared_refs (objective_elt : Element) :
  Exists (fun skill_id => skill_id ∉ declared_skill_ids root)
         (referenced_skill_ids objective_elt) ->
  Exists (fun skill_elt =>
            _skills_by_id (after_skills root) !! get skill_elt "idref" = None)
         (findall ["skills"; "skill"] objective_elt).
Proof.
  unfold referenced_skill_ids. rewrite Exists_fmap. intros H.
  eapply Exists_impl; [exact H|]. intros x Hx. apply eq_None_not_Some.
  intros Hk. apply Hx, after_skills_lookup_keys, Hk.
Qed.

Lemma same_skills_refl (m : t) : same_skills m m.
Proof. split; reflexivity. Qed.

Lemma from_xml_returns :
  Forall has_description (objective_elts root) -> references_declared root ->
  exists m, from_xml root = Ok m.
Proof.
  intros Hdesc Hrefs. rewrite from_xml_unfold.
  destruct (add_objectives_pass (after_skills root) (objective_elts root)
              (after_skills root) (same_skills_refl _)) as (m & E & _);
    [|exists m; exact E].
  apply Forall_forall. intros x Hx. split.
  - exact (proj1 (Forall_forall _ _) Hdesc x Hx).
  - apply declared_refs. exact (proj1 (Forall_forall _ _) Hrefs x Hx).
Qed.

Lemma from_xml_assertion :
  Forall has_description (objective_elts root) -> undeclared_reference root ->
  from_xml root = Raise AssertionError.
Proof.
  intros Hdesc Hrefs. rewrite from_xml_unfold.
  apply (add_objectives_dangle (after_skills root));
    [apply same_skills_refl | exact Hdesc |].
  apply Exists_exists in Hrefs as (x & Hx & Hbad).
  apply Exists_exists. exists x. split; [exact Hx|]. split.
  - exact (proj1 (Forall_forall _ _) Hdesc x Hx).
  - apply undeclared_refs, Hbad.
Qed.

Lemma from_xml_attribute :
  references_declared root ->
  Exists (fun objective_elt => ~ has_description objective_elt) (objective_elts root) ->
  from_xml root = Raise AttributeError.
Proof.
  intros Hrefs Hdesc. rewrite from_xml_unfold.
  apply (add_objectives_no_description (after_skills root));
    [apply same_skills_refl | | exact Hdesc].
  eapply Forall_impl; [exact Hrefs|]. intros x. apply declared_refs.
Qed.

Lemma from_xml_raises :
  Exists (fun objective_elt => ~ has_description objective_elt) (objective_elts root) ->
  exists e, from_xml root = Raise e.
Proof.
  intros Hdesc. rewrite from_xml_unfold. apply for_each_raises.
  eapply Exists_impl; [exact Hdesc|]. intros x Hx st.
  exists AttributeError. apply add_objective_no_description, Hx.
Qed.

End SkillsMapFromXml.

(** Every document is in one of the two cases. *)
Lemma references_declared_or_not (root : Element) :
  references_declared root \/ undeclared_reference root.
Proof.
  apply Forall_or_Exists, Forall_forall. intros o _.
  apply Forall_or_Exists, Forall_forall. intros r _.
  destruct (decide (r ∈ declared_skill_ids root)); auto.
Qed.

Lemma filter_absent {A B : Type} `{EqDecision B} (f : A -> B) (l : list A) (b : B) :
  b ∉ f <$> l -> filter (fun y => f y = b) l = [].
Proof.
  induction l as [|a l IH]; intros Hb; [reflexivity|].
  rewrite fmap_cons in Hb. apply not_elem_of_cons in Hb as [Hab Hb].
  rewrite filter_cons_False by (intros E; apply Hab; now rewrite E).
  apply IH, Hb.
Qed.

(** An id that occurs once in a sequence selects its one carrier. *)
Lemma filter_unique {A B : Type} `{EqDecision B} (f : A -> B) (l : list A) (x : A) :
  NoDup (f <$> l) -> x ∈ l -> filter (fun y => f y = f x) l = [x].
Proof.
  induction l as [|a l IH]; intros Hnd Hx; [inversion Hx|].
  rewrite fmap_cons in Hnd. apply NoDup_cons in Hnd as [Ha Hnd].
  apply elem_of_cons in Hx as [->|Hx].
  - rewrite filter_cons_True by reflexivity. now rewrite filter_absent.
  - rewrite filter_cons_False; [apply IH; assumption|].
    intros E. apply Ha. rewrite E. apply list_elem_of_fmap_2, Hx.
Qed.

(** * Properties of [ResourcesMap.from_xml] *)

Section ResourcesMapFacts.

Import ResourcesMap.

Variable skills_map : option SkillsMap.t.

(** The reference passes the assertion of the inner loop. *)
Let known (skill_elt : Element) : Prop :=
  match skills_map with
  | None => True
  | Some sm => is_Some (SkillsMap.get_skill_by_id sm (get skill_elt "idref"))
  end.

Let unknown (skill_elt : Element) : Prop :=
  exists sm, skills_map = Some sm /\
             SkillsMap.get_skill_by_id sm (get skill_elt "idref") = None.

Let always (_ : t) : Prop := True.

Lemma known_or_unknown (xs : list Element) :
  Forall (fun x => known x \/ unknown x) xs.
Proof.
  apply Forall_forall. intros x _. unfold known, unknown.
  destruct skills_map as [sm|]; [|auto].
  destruct (SkillsMap.get_skill_by_id sm (get x "idref")) eqn:E; eauto.
Qed.

Lemma add_reference_known (resource_id : pystr) (m : t) (x : Element) :
  always m -> known x ->
  exists m', add_reference skills_map resource_id m x = Ok m' /\ always m'.
Proof.
  intros _ H. unfold add_reference, known in *.
  destruct skills_map as [sm|]; [destruct H as [s ->]|];
    (eexists; split; [reflexivity | exact I]).
Qed.

Lemma add_reference_unknown (resource_id : pystr) (m : t) (x : Element) :
  always m -> unknown x ->
  add_reference skills_map resource_id m x = Raise AssertionError.
Proof.
  intros _ (sm & E & H). unfold add_reference. rewrite E, H. reflexivity.
Qed.

Lemma add_resource_known (m : t) (x : Element) :
  always m -> Forall known (findall ["skills"; "skill"] x) ->
  exists m', add_resource skills_map m x = Ok m' /\ always m'.
Proof.
  intros _ H. unfold add_resource.
  eapply (for_each_all_ok _ always known); [|exact H|exact I].
  intros st y. apply add_reference_known.
Qed.

Lemma add_resource_unknown (m : t) (x : Element) :
  always m -> Exists unknown (findall ["skills"; "skill"] x) ->
  add_resource skills_map m x = Raise AssertionError.
Proof.
  intros _ H. unfold add_resource.
  eapply (for_each_some_bad _ always known unknown);
    [| |apply known_or_unknown|exact H|exact I].
  - intros st y. apply add_reference_known.
  - intros st y. apply add_reference_unknown.
Qed.

(** [from_xml] returns, or an unknown reference makes it raise
    [AssertionError]. *)
Lemma resources_from_xml_outcome (root : Element) :
  (exists m, from_xml root skills_map = Ok m) \/
  (from_xml root skills_map = Raise AssertionError /\
   Exists (fun x => Exists unknown (findall ["skills"; "skill"] x))
          (resource_elts root)).
Proof.
  unfold from_xml. fold (resource_elts root).
  destruct (Forall_or_Exists
              (fun x => Forall known (findall ["skills"; "skill"] x))
              (fun x => Exists unknown (findall ["skills"; "skill"] x))
              (resource_elts root)) as [Hok|Hbad].
  - apply Forall_forall. intros x _.
    apply Forall_or_Exists, known_or_unknown.
  - left.
    destruct (for_each_all_ok (add_resource skills_map) always _
                add_resource_known _ Hok
                (__init__ (get root "id") skills_map) I) as (m & E & _).
    exists m. exact E.
  - right. split; [|exact Hbad].
    eapply (for_each_some_bad _ always
              (fun x => Forall known (findall ["skills"; "skill"] x))
              (fun x => Exists unknown (findall ["skills"; "skill"] x)));
      [ intros st y; apply add_resource_known
      | intros st y; apply add_resource_unknown
      | | exact Hbad | exact I ].
    apply Forall_forall. intros x _. apply Forall_or_Exists, known_or_unknown.
Qed.

Lemma resources_from_xml_unknown (root : Element) (sm : SkillsMap.t) :
  skills_map = Some sm -> unknown_reference sm root ->
  from_xml root skills_map = Raise AssertionError.
Proof.
  intros E Hbad. unfold from_xml. fold (resource_elts root).
  eapply (for_each_some_bad _ always
            (fun x => Forall known (findall ["skills"; "skill"] x))
            (fun x => Exists unknown (findall ["skills"; "skill"] x)));
    [ intros st y; apply add_resource_known
    | intros st y; apply add_resource_unknown
    | | | exact I ].
  - apply Forall_forall. intros x _. apply Forall_or_Exists, known_or_unknown.
  - eapply Exists_impl; [exact Hbad|]. intros x Hx.
    unfold referenced_skill_ids in Hx. rewrite Exists_fmap in Hx.
    eapply Exists_impl; [exact Hx|]. intros y Hy. exists sm. split; assumption.
Qed.

Lemma add_reference_resources_inverse (resource_id : pystr) (m m' : t) (x : Element) :
  ResourcesMapInv.inverse skills_map m -> add_reference skills_map resource_id m x = Ok m' ->
  ResourcesMapInv.inverse skills_map m'.
Proof.
  unfold add_reference. intros [H1 H2] E.
  match type of E with (if ?b then _ else _) = _ => destruct b end;
    [|discriminate].
  injection E as <-. split; [apply inverse_maps_add, H1 | exact H2].
Qed.

Lemma add_resource_resources_inverse (m m' : t) (x : Element) :
  ResourcesMapInv.inverse skills_map m -> add_resource skills_map m x = Ok m' -> ResourcesMapInv.inverse skills_map m'.
Proof.
  unfold add_resource. intros H E.
  eapply (for_each_invariant _ (ResourcesMapInv.inverse skills_map)); [|idtac|exact E].
  - intros st y st'. apply add_reference_resources_inverse.
  - exact H.
Qed.

Lemma resources_from_xml_inverse (root : Element) (m : t) :
  from_xml root skills_map = Ok m -> ResourcesMapInv.inverse skills_map m.
Proof.
  unfold from_xml. intros E.
  eapply (for_each_invariant _ (ResourcesMapInv.inverse skills_map)); [|idtac|exact E].
  - intros st y st'. apply add_resource_resources_inverse.
  - split; [apply inverse_maps_empty | reflexivity].
Qed.

End ResourcesMapFacts.

Lemma elem_of_foldl_union (f : pystr -> gset pystr) (l : list pystr)
    (init : gset pystr) (o : pystr) :
  o ∈ foldl (fun acc x => acc ∪ f x) init l <->
  o ∈ init \/ exists x, x ∈ l /\ o ∈ f x.
Proof.
  revert init. induction l as [|a l IH]; intros init; simpl.
  - split; [auto | intros [H|(x & Hx & _)]; [exact H | inversion Hx]].
  - rewrite IH, elem_of_union. split.
    + intros [[H|H]|(x & Hx & H)]; eauto using list_elem_of_here, list_elem_of_further.
    + intros [H|(x & Hx & H)]; [auto|].
      apply elem_of_cons in Hx as [->|Hx]; eauto.
Qed.

(** * What the specification states about the two maps *)

(** Settles, by evaluation, what a given document declares and references. *)
Ltac by_evaluation :=
  unfold references_declared, undeclared_reference, unknown_reference,
    has_description;
  compute_done.

(** C4: for every ResourcesMap and resource id, when the map holds a
    SkillsMap reference [get_objectives_for_resource] returns the union, over
    the skill ids of [get_skills_for_resource], of the SkillsMap's
    [get_objectives_for_skill]; when it holds none, the call raises
    [AssertionError].  The map [from_xml] returns holds the reference it was
    given. *)
Theorem get_objectives_for_resource_union :
  (forall (self : ResourcesMap.t) (resource_id : pystr),
     match ResourcesMap._skills_map self with
     | Some skills_map =>
         exists objectives : gset pystr,
           ResourcesMap.get_objectives_for_resource self resource_id = Ok objectives /\
           forall o : pystr,
             o ∈ objectives <->
             exists skill_id : pystr,
               skill_id ∈ ResourcesMap.get_skills_for_resource self resource_id /\
               o ∈ SkillsMap.get_objectives_for_skill skills_map skill_id
     | None =>
         ResourcesMap.get_objectives_for_resource self resource_id
         = Raise AssertionError
     end) /\
  (forall (root : Element) (skills_map : option SkillsMap.t) (self : ResourcesMap.t),
     ResourcesMap.from_xml root skills_map = Ok self ->
     ResourcesMap._skills_map self = skills_map).
Proof.
  split.
  - intros self resource_id. unfold ResourcesMap.get_objectives_for_resource.
    destruct (ResourcesMap._skills_map self) as [skills_map|]; [|reflexivity].
    eexists. split; [reflexivity|]. intros o.
    rewrite elem_of_foldl_union. setoid_rewrite elem_of_elements.
    split; [intros [H|H]; [set_solver | exact H] | auto].
  - intros root skills_map self E.
    exact (proj2 (resources_from_xml_inverse skills_map root self E)).
Qed.

Lemma get_objectives_for_resource_union_witness :
  (ResourcesMap._skills_map sample_resources_map = Some sample_skills_map /\
   ResourcesMap.get_objectives_for_resource sample_resources_map (Some "q1")
   = Ok {[ Some "o1"; Some "o2" ]}) /\
  (ResourcesMap._skills_map unchecked_resources_map = None /\
   ResourcesMap.get_objectives_for_resource unchecked_resources_map (Some "q1")
   = Raise AssertionError).
Proof.
  split; (split; [|vm_compute; reflexivity]).
  - apply (proj2 get_objectives_for_resource_union sample_resources_doc).
    vm_compute. reflexivity.
  - apply (proj2 get_objectives_for_resource_union sample_resources_doc).
    vm_compute. reflexivity.
Defined.

(** C5 as stated fails: in [no_description_doc] every skill reference of an
    objective is declared (there is none), yet construction raises
    [AttributeError], because the objective has no [description] element. *)
Lemma from_xml_declared_references_raises :
  references_declared no_description_doc /\
  SkillsMap.from_xml no_description_doc = Raise AttributeError.
Proof.
  split; [by_evaluation | vm_compute; reflexivity].
Qed.

(** C5, amended: for every skills document whose objectives each have a
    [description] sub-element: when some objective refers to a skill id the
    skills section does not declare, [SkillsMap.from_xml] raises
    [AssertionError] and returns no object; when every reference is
    declared, it returns a SkillsMap. *)
Theorem from_xml_checks_references (root : Element) :
  Forall has_description (objective_elts root) ->
  (undeclared_reference root -> SkillsMap.from_xml root = Raise AssertionError) /\
  (references_declared root -> exists m, SkillsMap.from_xml root = Ok m).
Proof.
  intros Hdesc. split.
  - apply from_xml_assertion, Hdesc.
  - apply from_xml_returns, Hdesc.
Qed.

Lemma from_xml_checks_references_witness :
  SkillsMap.from_xml unknown_skill_doc = Raise AssertionError /\
  exists m, SkillsMap.from_xml sample_skills_doc = Ok m.
Proof.
  split.
  - apply (from_xml_checks_references unknown_skill_doc); by_evaluation.
  - apply (from_xml_checks_references sample_skills_doc); by_evaluation.
Defined.

(** C6: for every resources document and optional skills map,
    [ResourcesMap.from_xml] raises [AssertionError] exactly when a skills map
    is supplied and some resource refers to a skill id absent from its
    lookup; it raises nothing else; and without a skills map it returns a
    ResourcesMap. *)
Theorem resources_from_xml_checks_references :
  forall (root : Element) (skills_map : option SkillsMap.t),
    ((exists e, ResourcesMap.from_xml root skills_map = Raise e) <->
     (exists sm, skills_map = Some sm /\ unknown_reference sm root)) /\
    (forall e, ResourcesMap.from_xml root skills_map = Raise e -> e = AssertionError) /\
    (exists self, ResourcesMap.from_xml root None = Ok self).
Proof.
  intros root skills_map. split; [split|split].
  - intros [e E].
    destruct (resources_from_xml_outcome skills_map root) as [[m Hm]|[_ Hbad]];
      [congruence|].
    apply Exists_exists in Hbad as (x & Hx & Hbad).
    apply Exists_exists in Hbad as (y & Hy & sm & Esm & Hnone).
    exists sm. split; [exact Esm|].
    apply Exists_exists. exists x. split; [exact Hx|].
    apply Exists_exists. exists (get y "idref"). split; [|exact Hnone].
    unfold referenced_skill_ids. apply list_elem_of_fmap.
    exists y. split; [reflexivity | exact Hy].
  - intros (sm & Esm & Hbad). exists AssertionError.
    apply (resources_from_xml_unknown skills_map root sm Esm Hbad).
  - intros e E.
    destruct (resources_from_xml_outcome skills_map root) as [[m Hm]|[Hr _]];
      congruence.
  - destruct (resources_from_xml_outcome None root) as [H|[_ Hbad]]; [exact H|].
    apply Exists_exists in Hbad as (x & _ & Hbad).
    apply Exists_exists in Hbad as (y & _ & sm & Esm & _). discriminate.
Qed.

(** C7: in every SkillsMap [from_xml] returns, objective [o] is among the
    objectives of skill [s] exactly when [s] is among the skills of [o]; in
    every ResourcesMap [from_xml] returns, resource [r] is among the
    resources of skill [s] exactly when [s] is among the skills of [r]. *)
Theorem adjacency_maps_inverse :
  (forall (root : Element) (m : SkillsMap.t),
     SkillsMap.from_xml root = Ok m ->
     forall s o : pystr,
       o ∈ SkillsMap.get_objectives_for_skill m s <->
       s ∈ SkillsMap.get_skills_for_objective m o) /\
  (forall (root : Element) (skills_map : option SkillsMap.t) (m : ResourcesMap.t),
     ResourcesMap.from_xml root skills_map = Ok m ->
     forall r s : pystr,
       r ∈ ResourcesMap.get_resources_for_skill m s <->
       s ∈ ResourcesMap.get_skills_for_resource m r).
Proof.
  split.
  - intros root m E s o. exact (from_xml_inverse root m E s o).
  - intros root skills_map m E r s.
    exact (proj1 (resources_from_xml_inverse skills_map root m E) s r).
Qed.

Lemma adjacency_maps_inverse_witness :
  (Some "o2" ∈ SkillsMap.get_objectives_for_skill sample_skills_map (Some "sub") <->
   Some "sub" ∈ SkillsMap.get_skills_for_objective sample_skills_map (Some "o2")) /\
  (Some "q2" ∈ ResourcesMap.get_resources_for_skill sample_resources_map (Some "mul") <->
   Some "mul" ∈ ResourcesMap.get_skills_for_resource sample_resources_map (Some "q2")).
Proof.
  split.
  - apply (proj1 adjacency_maps_inverse sample_skills_doc).
    vm_compute. reflexivity.
  - apply (proj2 adjacency_maps_inverse sample_resources_doc (Some sample_skills_map)).
    vm_compute. reflexivity.
Defined.

(** C8 as stated fails: [duplicate_skill_doc] declares the id [add] twice;
    [from_xml] keeps both skills in the sequence, and the id lookup returns
    the second one, not the first. *)
Lemma duplicate_skill_ids_kept :
  let s1 := Skill.__init__ (Some "add") (Some "Addition") in
  let s2 := Skill.__init__ (Some "add") (Some "Adding fractions") in
  exists m : SkillsMap.t,
    SkillsMap.from_xml duplicate_skill_doc = Ok m /\
    SkillsMap.skills m = [s1; s2] /\
    Skill.id s1 = Skill.id s2 /\
    s1 <> s2 /\
    SkillsMap.get_skill_by_id m (Skill.id s1) = Some s2.
Proof.
  eexists. split; [vm_compute; reflexivity|].
  split; [reflexivity|]. split; [reflexivity|]. split; [discriminate|].
  vm_compute. reflexivity.
Qed.

(** C8, amended: for every skills document whose skill elements carry
    pairwise distinct ids, in the SkillsMap [from_xml] returns no two entries
    of the skills sequence share an id, and [get_skill_by_id] at the id of a
    skill of the sequence returns that skill. *)
Theorem skill_ids_unique_when_declared_once (root : Element) (m : SkillsMap.t) :
  NoDup (declared_skill_ids root) ->
  SkillsMap.from_xml root = Ok m ->
  NoDup (Skill.id <$> SkillsMap.skills m) /\
  forall s : Skill.t,
    s ∈ SkillsMap.skills m -> SkillsMap.get_skill_by_id m (Skill.id s) = Some s.
Proof.
  intros Hnd E.
  destruct (from_xml_same_skills root m E) as [Hskills Hlookup].
  assert (Hids : Skill.id <$> SkillsMap.skills m = declared_skill_ids root).
  { unfold SkillsMap.skills, declared_skill_ids.
    rewrite Hskills, after_skills_skills, <- list_fmap_compose. reflexivity. }
  split; [rewrite Hids; exact Hnd|].
  intros s Hs. unfold SkillsMap.get_skill_by_id. rewrite Hlookup.
  rewrite (after_skills_lookup_is_last root (Skill.id s)), <- Hskills.
  rewrite (filter_unique Skill.id); [reflexivity | | exact Hs].
  fold (SkillsMap.skills m). rewrite Hids. exact Hnd.
Qed.

Lemma skill_ids_unique_when_declared_once_witness :
  NoDup (Skill.id <$> SkillsMap.skills sample_skills_map) /\
  forall s : Skill.t,
    s ∈ SkillsMap.skills sample_skills_map ->
    SkillsMap.get_skill_by_id sample_skills_map (Skill.id s) = Some s.
Proof.
  apply (skill_ids_unique_when_declared_once sample_skills_doc);
    [compute_done | vm_compute; reflexivity].
Defined.

(** C9 as stated fails: the objective of [no_description_doc] has no
    [description] sub-element, and [from_xml] raises [AttributeError]; no
    SkillsMap is produced. *)
Lemma missing_description_raises :
  Exists (fun objective_elt => ~ has_description objective_elt)
         (objective_elts no_description_doc) /\
  SkillsMap.from_xml no_description_doc = Raise AttributeError.
Proof. split; [by_evaluation | vm_compute; reflexivity]. Qed.

(** C9, amended: for every skills document containing an objective element
    that has no [description] sub-element, [SkillsMap.from_xml] raises and
    produces no SkillsMap; the exception is [AttributeError] when every
    skill reference of the document is declared (otherwise an earlier
    undeclared reference may raise [AssertionError] first). *)
Theorem from_xml_requires_description (root : Element) :
  Exists (fun objective_elt => ~ has_description objective_elt) (objective_elts root) ->
  (exists e, SkillsMap.from_xml root = Raise e) /\
  (references_declared root -> SkillsMap.from_xml root = Raise AttributeError).
Proof.
  intros Hdesc. split.
  - apply from_xml_raises, Hdesc.
  - intros Hrefs. apply from_xml_attribute; assumption.
Qed.

Lemma from_xml_requires_description_witness :
  (exists e, SkillsMap.from_xml no_description_doc = Raise e) /\
  (references_declared no_description_doc ->
   SkillsMap.from_xml no_description_doc = Raise AttributeError).
Proof.
  apply (from_xml_requires_description no_description_doc). by_evaluation.
Defined.

(** * More about the estimator *)

Section EstimatorRange.

#[local] Open Scope Q_scope.
Import BKTEstimator.

(** What a returned posterior is made of: a ratio [p] of the dividend to
    the divisor, which is not zero. *)
Lemma get_posterior_Ok_inv (self : t) (prior : Q) (is_correct : bool) (r : Q) :
  get_posterior self prior is_correct = Ok r ->
  exists p : Q,
    ~ denominator self prior is_correct == 0 /\
    p * denominator self prior is_correct ==
      (if is_correct then prior * (1 - _p_slip self) else prior * _p_slip self) /\
    r = p + (1 - p) * _p_learning self.
Proof.
  rewrite get_posterior_division. unfold truediv.
  destruct (Qeq_bool (denominator self prior is_correct) 0) eqn:E; [discriminate|].
  rewrite bind_Ok. intros [= <-].
  assert (Hd : ~ denominator self prior is_correct == 0).
  { intros H. apply Qeq_bool_iff in H. congruence. }
  eexists. split; [exact Hd|]. split; [|reflexivity].
  rewrite Qmult_comm. apply Qmult_div_r, Hd.
Qed.

Lemma get_posterior_Ok_intro (self : t) (prior : Q) (is_correct : bool) :
  ~ denominator self prior is_correct == 0 ->
  exists r, get_posterior self prior is_correct = Ok r.
Proof.
  intros Hd. rewrite get_posterior_division, (truediv_nonzero _ _ Hd).
  eexists. reflexivity.
Qed.

Lemma denominator_nonneg (self : t) (prior : Q) (is_correct : bool) :
  valid_estimator self -> 0 <= prior -> prior <= 1 ->
  0 <= denominator self prior is_correct.
Proof.
  intros (_ & [Hg0 Hg1] & [Hs0 Hs1]) H0 H1. unfold denominator.
  destruct is_correct; nra.
Qed.

(** The ratio of a returned posterior is a probability. *)
Lemma ratio_range (self : t) (prior p : Q) (is_correct : bool) :
  valid_estimator self -> 0 <= prior -> prior <= 1 ->
  ~ denominator self prior is_correct == 0 ->
  p * denominator self prior is_correct ==
    (if is_correct then prior * (1 - _p_slip self) else prior * _p_slip self) ->
  0 <= p /\ p <= 1.
Proof.
  intros Hv H0 H1 Hd Hp.
  pose proof (denominator_nonneg self prior is_correct Hv H0 H1) as Hd0.
  assert (Hpos : 0 < denominator self prior is_correct).
  { destruct (Qlt_le_dec 0 (denominator self prior is_correct)) as [H|H]; [exact H|].
    exfalso. apply Hd. lra. }
  destruct Hv as (_ & [Hg0 Hg1] & [Hs0 Hs1]).
  revert Hp Hpos. unfold denominator. destruct is_correct; intros Hp Hpos; split; nra.
Qed.

End EstimatorRange.

(** X1: with probabilities as parameters and a prior in [[0,1]], a posterior
    that [get_posterior] returns is in [[0,1]] and not below the learning
    parameter. *)
Theorem get_posterior_range (self : BKTEstimator.t) (prior r : Q) (is_correct : bool) :
  valid_estimator self -> (0 <= prior)%Q -> (prior <= 1)%Q ->
  BKTEstimator.get_posterior self prior is_correct = Ok r ->
  (0 <= r)%Q /\ (r <= 1)%Q /\ (BKTEstimator._p_learning self <= r)%Q.
Proof.
  intros Hv H0 H1 E.
  destruct (get_posterior_Ok_inv self prior is_correct r E) as (p & Hd & Hp & ->).
  destruct (ratio_range self prior p is_correct Hv H0 H1 Hd Hp) as [Hp0 Hp1].
  destruct Hv as ([Hl0 Hl1] & _). repeat split; nra.
Qed.

Lemma get_posterior_range_witness :
  exists r : Q,
    BKTEstimator.get_posterior BKTEstimator.get_standard_estimator 1 true = Ok r /\
    (0 <= r)%Q /\ (r <= 1)%Q /\ (0.1 <= r)%Q.
Proof.
  eexists. split; [reflexivity|].
  apply (get_posterior_range BKTEstimator.get_standard_estimator 1 _ true);
    [|discriminate|discriminate|reflexivity].
  repeat split; discriminate.
Defined.



(** X3: when a slip is impossible, an incorrect answer leaves the learning
    parameter as the posterior, for every prior other than [1] and every
    guess parameter other than [1]. *)
Theorem get_posterior_no_slip_incorrect (self : BKTEstimator.t) (prior : Q) :
  (BKTEstimator._p_slip self == 0)%Q ->
  ~ (BKTEstimator._p_guess self == 1)%Q ->
  ~ (prior == 1)%Q ->
  exists r : Q,
    BKTEstimator.get_posterior self prior false = Ok r /\
    (r == BKTEstimator._p_learning self)%Q.
Proof.
  intros Hs Hg H1.
  assert (Hd : ~ (BKTEstimator.denominator self prior false == 0)%Q).
  { unfold BKTEstimator.denominator. rewrite Hs. intros E.
    assert (E' : ((1 - prior) * (1 - BKTEstimator._p_guess self) == 0)%Q) by lra.
    apply Qmult_integral in E' as [E'|E']; [apply H1 | apply Hg]; lra. }
  destruct (get_posterior_Ok_intro self prior false Hd) as [r E].
  exists r. split; [exact E|].
  destruct (get_posterior_Ok_inv self prior false r E) as (p & _ & Hp & ->).
  rewrite Hs in Hp.
  assert (Hp0 : (p == 0)%Q).
  { assert (E' : (p * BKTEstimator.denominator self prior false == 0)%Q) by lra.
    apply Qmult_integral in E' as [E'|E']; [exact E' | contradiction]. }
  rewrite Hp0. ring.
Qed.

Lemma get_posterior_no_slip_incorrect_witness :
  exists r : Q,
    BKTEstimator.get_posterior no_slip_estimator 0.25 false = Ok r /\ (r == 0.1)%Q.
Proof.
  apply (get_posterior_no_slip_incorrect no_slip_estimator 0.25);
    [reflexivity | intros E; vm_compute in E; discriminate
     | intros E; vm_compute in E; discriminate].
Defined.



(** X5: at the boundary priors a returned posterior does not depend on the
    answer: from prior [1] it is [1] (what is known is not forgotten), from
    prior [0] it is the learning parameter. *)
Theorem get_posterior_boundary (self : BKTEstimator.t) (prior r : Q)
    (is_correct : bool) :
  BKTEstimator.get_posterior self prior is_correct = Ok r ->
  ((prior == 1)%Q -> (r == 1)%Q) /\
  ((prior == 0)%Q -> (r == BKTEstimator._p_learning self)%Q).
Proof.
  intros E.
  destruct (get_posterior_Ok_inv self prior is_correct r E) as (p & Hd & Hp & ->).
  split; intros Hprior.
  - assert (Hp1 : (p == 1)%Q).
    { assert (E' : ((p - 1) * BKTEstimator.denominator self prior is_correct == 0)%Q).
      { revert Hp. unfold BKTEstimator.denominator.
        destruct is_correct; intros Hp; nra. }
      apply Qmult_integral in E' as [E'|E']; [lra | contradiction]. }
    rewrite Hp1. ring.
  - assert (Hp0 : (p == 0)%Q).
    { assert (E' : (p * BKTEstimator.denominator self prior is_correct == 0)%Q).
      { rewrite Hp. destruct is_correct; nra. }
      apply Qmult_integral in E' as [E'|E']; [exact E' | contradiction]. }
    rewrite Hp0. ring.
Qed.

Lemma get_posterior_boundary_witness :
  exists r : Q,
    BKTEstimator.get_posterior BKTEstimator.get_standard_estimator 0 true = Ok r /\
    (((0 == 1)%Q -> (r == 1)%Q) /\ ((0 == 0)%Q -> (r == 0.1)%Q)).
Proof.
  eexists. split; [reflexivity|].
  apply (get_posterior_boundary BKTEstimator.get_standard_estimator 0 _ true).
  reflexivity.
Defined.

(** X6: for the standard estimator and a prior in [[0,1]], the estimate is
    left unchanged by a correct answer only at [1], and by an incorrect
    answer only at [0.14] and at [1]. *)
Theorem standard_estimator_fixed_points (prior r : Q) (is_correct : bool) :
  (0 <= prior)%Q -> (prior <= 1)%Q ->
  BKTEstimator.get_posterior BKTEstimator.get_standard_estimator prior is_correct
  = Ok r ->
  (r == prior)%Q <->
  (if is_correct then (prior == 1)%Q else (prior == 0.14)%Q \/ (prior == 1)%Q).
Proof.
  intros H0 H1 E.
  destruct (get_posterior_Ok_inv _ prior is_correct r E) as (p & Hd & Hp & ->).
  revert Hd Hp. unfold BKTEstimator.denominator. simpl.
  destruct is_correct; intros Hd Hp; split.
  - intros Hr.
    assert (E' : ((prior - 1) * (prior + 0.06) == 0)%Q) by nra.
    apply Qmult_integral in E' as [E'|E']; lra.
  - intros Hprior. assert (p == 1)%Q by nra. nra.
  - intros Hr.
    assert (E' : ((prior - 0.14) * (prior - 1) == 0)%Q) by nra.
    apply Qmult_integral in E' as [E'|E']; [left | right]; lra.
  - intros [Hprior|Hprior].
    + assert (p * 0.63 == 0.028)%Q by nra. nra.
    + assert (p == 1)%Q by nra. nra.
Qed.

Lemma standard_estimator_fixed_points_witness :
  exists r : Q,
    BKTEstimator.get_posterior BKTEstimator.get_standard_estimator 0.14 false = Ok r /\
    ((r == 0.14)%Q <-> (0.14 == 0.14)%Q \/ (0.14 == 1)%Q).
Proof.
  eexists. split; [reflexivity|].
  apply (standard_estimator_fixed_points 0.14 _ false);
    [discriminate | discriminate | reflexivity].
Defined.

(** * More about loops *)

Section MoreLoops.

Context {S X : Type} (body : S -> X -> result S).

(** A component of the state that every pass updates by [step] is, when the
    loop ends, the fold of [step] over the sequence. *)
Lemma for_each_fold {A : Type} (proj : S -> A) (step : A -> X -> A) :
  (forall st x st', body st x = Ok st' -> proj st' = step (proj st) x) ->
  forall xs st st',
    for_each body st xs = Ok st' -> proj st' = fold_left step xs (proj st).
Proof.
  intros Hbody xs. induction xs as [|x xs IH]; intros st st' E.
  - simpl in E. injection E as <-. reflexivity.
  - rewrite for_each_cons in E.
    destruct (body st x) as [st1|e] eqn:E1; [|discriminate].
    rewrite bind_Ok in E. simpl. rewrite <- (Hbody st x st1 E1). apply IH, E.
Qed.

(** A relation read off the state, to which every pass adds what its
    element contributes, holds in the end what it held at the start and
    what the elements of the sequence contribute. *)
Lemma for_each_grows {A : Type} (R : S -> A -> Prop) (adds : X -> A -> Prop) :
  (forall st x st', body st x = Ok st' -> forall a, R st' a <-> R st a \/ adds x a) ->
  forall xs st st',
    for_each body st xs = Ok st' ->
    forall a, R st' a <-> R st a \/ exists x, x ∈ xs /\ adds x a.
Proof.
  intros Hbody xs. induction xs as [|x xs IH]; intros st st' E a.
  - simpl in E. injection E as <-. split; [auto|].
    intros [H|(x & Hx & _)]; [exact H | inversion Hx].
  - rewrite for_each_cons in E.
    destruct (body st x) as [st1|e] eqn:E1; [|discriminate].
    rewrite bind_Ok in E. rewrite (IH st1 st' E a), (Hbody st x st1 E1 a).
    split.
    + intros [[H|H]|(y & Hy & H)]; eauto using list_elem_of_here, list_elem_of_further.
    + intros [H|(y & Hy & H)]; [auto|].
      apply elem_of_cons in Hy as [->|Hy]; eauto.
Qed.

(** A loop that returns has passed every element. *)
Lemma for_each_Ok_passes (ok : X -> Prop) :
  (forall st x st', body st x = Ok st' -> ok x) ->
  forall xs st st', for_each body st xs = Ok st' -> Forall ok xs.
Proof.
  intros Hbody xs. induction xs as [|x xs IH]; intros st st' E; [constructor|].
  rewrite for_each_cons in E.
  destruct (body st x) as [st1|e] eqn:E1; [|discriminate].
  rewrite bind_Ok in E. constructor; [eapply Hbody, E1 | eapply IH, E].
Qed.

End MoreLoops.

Lemma fold_left_snoc_fmap {A B : Type} (f : A -> B) (xs : list A) (l : list B) :
  fold_left (fun acc x => acc ++ [f x]) xs l = l ++ (f <$> xs).
Proof.
  revert l. induction xs as [|x xs IH]; intros l; simpl.
  - now rewrite app_nil_r.
  - rewrite IH, <- app_assoc. reflexivity.
Qed.

(** A dict filled by assignments in sequence holds, at each key, the last
    value assigned under it. *)
Lemma fold_left_insert_last {A V : Type} (key : V -> pystr) (f : A -> V)
    (xs : list A) (d : gmap pystr V) (l : list V) :
  (forall k, d !! k = last (filter (fun v => key v = k) l)) ->
  forall k,
    fold_left (fun acc x => <[ key (f x) := f x ]> acc) xs d !! k
    = last (filter (fun v => key v = k) (l ++ (f <$> xs))).
Proof.
  revert d l. induction xs as [|x xs IH]; intros d l H k.
  - simpl. rewrite app_nil_r. apply H.
  - rewrite fmap_cons, cons_middle, app_assoc. cbn [fold_left].
    apply IH. intros k'. rewrite filter_app.
    destruct (decide (key (f x) = k')) as [E|E].
    + rewrite filter_cons_True, filter_nil by exact E. subst k'.
      rewrite lookup_insert_eq, last_snoc. reflexivity.
    + rewrite filter_cons_False, filter_nil by exact E.
      rewrite lookup_insert_ne, app_nil_r by exact E. apply H.
Qed.

Lemma last_filter_None {A : Type} (P : A -> Prop) `{forall x, Decision (P x)}
    (l : list A) :
  last (filter P l) = None <-> Forall (fun x => ~ P x) l.
Proof.
  rewrite last_None. induction l as [|a l IH].
  - rewrite filter_nil. split; [constructor | reflexivity].
  - destruct (decide (P a)) as [Ha|Ha].
    + rewrite filter_cons_True by exact Ha. split; [discriminate|].
      intros HF. apply Forall_cons in HF as [HF _]. contradiction.
    + rewrite filter_cons_False by exact Ha. rewrite IH, Forall_cons. tauto.
Qed.

Lemma not_elem_of_fmap_Forall {A B : Type} (f : A -> B) (l : list A) (b : B) :
  b ∉ f <$> l <-> Forall (fun x => f x <> b) l.
Proof.
  rewrite Forall_forall, list_elem_of_fmap. split.
  - intros H x Hx E. apply H. exists x. split; [symmetry; exact E | exact Hx].
  - intros H (x & E & Hx). exact (H x Hx (eq_sym E)).
Qed.

(** * More about [SkillsMap.from_xml] *)

Section SkillsMapContents.

Import SkillsMap SkillsMapInv.

(** The edge from skill [a.1] to objective [a.2] is in the first adjacency dict. *)
Let edge (m : t) (a : pystr * pystr) : Prop :=
  a.2 ∈ get_objectives_for_skill m a.1.

Lemma add_reference_Ok_inv (objective : Objective.t) (m m' : t) (x : Element) :
  add_reference objective m x = Ok m' ->
  is_Some (_skills_by_id m !! get x "idref") /\
  _objectives m' = _objectives m /\
  _objectives_by_id m' = _objectives_by_id m /\
  forall a, edge m' a <-> edge m a \/ (a.1 = get x "idref" /\ a.2 = Objective.id objective).
Proof.
  unfold add_reference. intros E.
  destruct (_skills_by_id m !! get x "idref") as [s|] eqn:El; [|discriminate].
  injection E as <-. split; [eauto|]. split; [reflexivity|]. split; [reflexivity|].
  intros [s' o']. unfold edge, get_objectives_for_skill. simpl.
  rewrite elem_of_setdefault_add. tauto.
Qed.

Lemma add_references_Ok_inv (objective : Objective.t) (xs : list Element) (m m' : t) :
  for_each (add_reference objective) m xs = Ok m' ->
  Forall (fun x => is_Some (_skills_by_id m !! get x "idref")) xs /\
  _objectives m' = _objectives m /\
  _objectives_by_id m' = _objectives_by_id m /\
  forall a, edge m' a <->
            edge m a \/ (a.1 ∈ ((fun x => get x "idref") <$> xs) /\
                         a.2 = Objective.id objective).
Proof.
  intros E. split; [|split; [|split]].
  - revert m E. induction xs as [|x xs IH]; intros m E; [constructor|].
    rewrite for_each_cons in E.
    destruct (add_reference objective m x) as [m1|e] eqn:E1; [|discriminate].
    rewrite bind_Ok in E.
    destruct (add_reference_Ok_inv objective m m1 x E1) as (Hx & _).
    constructor; [exact Hx|].
    assert (Hsame : _skills_by_id m1 = _skills_by_id m)
      by exact (proj2 (add_reference_same_skills objective m m m1 x
                         (same_skills_refl m) E1)).
    rewrite <- Hsame. apply IH, E.
  - eapply (for_each_invariant _ (fun st => _objectives st = _objectives m));
      [|reflexivity|exact E].
    intros st x st' H E1.
    destruct (add_reference_Ok_inv objective st st' x E1) as (_ & -> & _). exact H.
  - eapply (for_each_invariant _ (fun st => _objectives_by_id st = _objectives_by_id m));
      [|reflexivity|exact E].
    intros st x st' H E1.
    destruct (add_reference_Ok_inv objective st st' x E1) as (_ & _ & -> & _). exact H.
  - intros a.
    rewrite (for_each_grows (add_reference objective) edge
               (fun x a => a.1 = get x "idref" /\ a.2 = Objective.id objective)
               (fun st x st' E1 => proj2 (proj2 (proj2
                  (add_reference_Ok_inv objective st st' x E1)))) xs m m' E a).
    rewrite list_elem_of_fmap. naive_solver.
Qed.

Lemma add_objective_Ok_inv (m m' : t) (x : Element) :
  add_objective m x = Ok m' ->
  has_description x /\
  Forall (fun y => is_Some (_skills_by_id m !! get y "idref"))
         (findall ["skills"; "skill"] x) /\
  _objectives m' = _objectives m ++ [objective_of_elt x] /\
  _objectives_by_id m' = <[ get x "id" := objective_of_elt x ]> (_objectives_by_id m) /\
  forall a, edge m' a <->
            edge m a \/ (a.2 = get x "id" /\ a.1 ∈ referenced_skill_ids x).
Proof.
  unfold add_objective, has_description, objective_of_elt. intros E.
  destruct (find ["description"] x) as [d|]; [|discriminate].
  rewrite bind_Ok in E.
  apply add_references_Ok_inv in E as (Hrefs & Ho & Hid & Hedge). simpl in *.
  split; [eauto|]. split; [exact Hrefs|]. split; [exact Ho|]. split; [exact Hid|].
  intros a. rewrite (Hedge a). unfold referenced_skill_ids. tauto.
Qed.

Variable root : Element.
Variable m : t.
Hypothesis parsed : from_xml root = Ok m.

Lemma from_xml_objectives :
  _objectives m = objective_of_elt <$> objective_elts root.
Proof.
  rewrite from_xml_unfold in parsed.
  rewrite (for_each_fold add_objective _objectives
             (fun acc x => acc ++ [objective_of_elt x])
             (fun st x st' E => proj1 (proj2 (proj2 (add_objective_Ok_inv st st' x E))))
             _ _ _ parsed).
  rewrite fold_left_snoc_fmap. unfold after_skills.
  now rewrite (proj1 (proj2 (add_skills_fields _ _))).
Qed.

Lemma from_xml_objectives_by_id (k : pystr) :
  _objectives_by_id m !! k
  = last (filter (fun o => Objective.id o = k) (_objectives m)).
Proof.
  rewrite from_xml_objectives. rewrite from_xml_unfold in parsed.
  rewrite (for_each_fold add_objective _objectives_by_id
             (fun acc x => <[ Objective.id (objective_of_elt x) := objective_of_elt x ]> acc)
             (fun st x st' E =>
                proj1 (proj2 (proj2 (proj2 (add_objective_Ok_inv st st' x E)))))
             _ _ _ parsed).
  rewrite (fold_left_insert_last Objective.id objective_of_elt _ _ []);
    [reflexivity|].
  intros k'. unfold after_skills.
  rewrite (proj1 (proj2 (proj2 (add_skills_fields _ _)))). reflexivity.
Qed.

Lemma from_xml_skills_by_id (k : pystr) :
  _skills_by_id m !! k = last (filter (fun s => Skill.id s = k) (_skills m)).
Proof.
  destruct (from_xml_same_skills root m parsed) as [-> ->].
  apply after_skills_lookup_is_last.
Qed.

Lemma from_xml_edges (s o : pystr) :
  o ∈ get_objectives_for_skill m s <-> objective_edge root s o.
Proof.
  rewrite from_xml_unfold in parsed.
  pose proof (for_each_grows add_objective edge
                (fun x a => a.2 = get x "id" /\ a.1 ∈ referenced_skill_ids x)
                (fun st x st' E =>
                   proj2 (proj2 (proj2 (proj2 (add_objective_Ok_inv st st' x E)))))
                _ _ _ parsed (s, o)) as H.
  unfold edge in H. simpl in H. rewrite H. unfold objective_edge. split.
  - intros [H0|(x & Hx & -> & Hs)]; [|eauto].
    unfold get_objectives_for_skill, after_skills in H0.
    rewrite (proj1 (proj2 (proj2 (proj2 (add_skills_fields _ _))))) in H0.
    simpl in H0. rewrite lookup_empty in H0. simpl in H0. set_solver.
  - intros (x & Hx & <- & Hs). right. eauto.
Qed.

Lemma from_xml_Ok_descriptions : Forall has_description (objective_elts root).
Proof.
  rewrite from_xml_unfold in parsed.
  eapply (for_each_Ok_passes add_objective has_description); [|exact parsed].
  intros st x st' E. exact (proj1 (add_objective_Ok_inv st st' x E)).
Qed.

Lemma from_xml_Ok_references : references_declared root.
Proof.
  destruct (references_declared_or_not root) as [H|H]; [exact H|].
  rewrite (from_xml_assertion root from_xml_Ok_descriptions H) in parsed.
  discriminate.
Qed.

Lemma from_xml_skills : _skills m = skill_of_elt <$> skill_elts root.
Proof.
  rewrite (proj1 (from_xml_same_skills root m parsed)). apply after_skills_skills.
Qed.

Lemma from_xml_skill_None (k : pystr) :
  _skills_by_id m !! k = None <-> k ∉ declared_skill_ids root.
Proof.
  rewrite from_xml_skills_by_id, last_filter_None, from_xml_skills,
    <- not_elem_of_fmap_Forall.
  unfold declared_skill_ids. rewrite <- list_fmap_compose. reflexivity.
Qed.

Lemma from_xml_objective_None (k : pystr) :
  _objectives_by_id m !! k = None <-> k ∉ declared_objective_ids root.
Proof.
  rewrite from_xml_objectives_by_id, last_filter_None, from_xml_objectives,
    <- not_elem_of_fmap_Forall.
  unfold declared_objective_ids. rewrite <- list_fmap_compose. reflexivity.
Qed.

Lemma from_xml_edges_back (s o : pystr) :
  s ∈ get_skills_for_objective m o <-> objective_edge root s o.
Proof.
  rewrite <- from_xml_edges. symmetry. exact (from_xml_inverse root m parsed s o).
Qed.

Lemma from_xml_edge_declared (s o : pystr) :
  objective_edge root s o ->
  s ∈ declared_skill_ids root /\ o ∈ declared_objective_ids root.
Proof.
  intros (x & Hx & <- & Hs). split.
  - exact (proj1 (Forall_forall _ _)
             (proj1 (Forall_forall _ _) from_xml_Ok_references x Hx) s Hs).
  - unfold declared_objective_ids. apply list_elem_of_fmap. eauto.
Qed.

End SkillsMapContents.

Section RaisedBy.

Context {S X : Type} (body : S -> X -> result S).

(** An exception that leaves the loop was raised by the body. *)
Lemma for_each_Raise_inv (xs : list X) (st : S) (e : exn) :
  for_each body st xs = Raise e ->
  exists st' x, x ∈ xs /\ body st' x = Raise e.
Proof.
  revert st. induction xs as [|x xs IH]; intros st E; [discriminate|].
  rewrite for_each_cons in E.
  destruct (body st x) as [st1|e1] eqn:E1.
  - rewrite bind_Ok in E. destruct (IH st1 E) as (st' & y & Hy & Ey).
    exists st', y. split; [apply list_elem_of_further, Hy | exact Ey].
  - injection E as ->. exists st, x. split; [apply list_elem_of_here | exact E1].
Qed.

End RaisedBy.

Lemma skills_from_xml_exceptions (root : Element) (e : exn) :
  SkillsMap.from_xml root = Raise e -> e = AssertionError \/ e = AttributeError.
Proof.
  intros E. apply for_each_Raise_inv in E as (m & x & _ & E).
  unfold SkillsMap.add_objective in E.
  destruct (find ["description"] x); [|injection E as <-; auto].
  rewrite bind_Ok in E. apply for_each_Raise_inv in E as (m' & y & _ & E).
  unfold SkillsMap.add_reference in E.
  destruct (SkillsMap._skills_by_id m' !! get y "idref"); [discriminate|].
  injection E as <-. auto.
Qed.

(** * More about [ResourcesMap.from_xml] *)

Section ResourcesMapContents.

Import ResourcesMap.

Variable skills_map : option SkillsMap.t.

(** The edge from skill [a.1] to resource [a.2] is in the first adjacency dict. *)
Let edge (m : t) (a : pystr * pystr) : Prop :=
  a.2 ∈ get_resources_for_skill m a.1.

(** The reference passes the assertion of the inner loop. *)
Let checked (skill_id : pystr) : Prop :=
  forall sm, skills_map = Some sm -> is_Some (SkillsMap.get_skill_by_id sm skill_id).

Lemma resources_add_reference_Ok_inv (resource_id : pystr) (m m' : t) (x : Element) :
  add_reference skills_map resource_id m x = Ok m' ->
  checked (get x "idref") /\
  _id m' = _id m /\
  _resource_ids m' = _resource_ids m /\
  forall a, edge m' a <-> edge m a \/ (a.1 = get x "idref" /\ a.2 = resource_id).
Proof.
  unfold add_reference, checked. intros E.
  match type of E with (if ?b then _ else _) = _ => destruct b eqn:Eb end;
    [|discriminate].
  injection E as <-. split; [|split; [reflexivity|split; [reflexivity|]]].
  - intros sm ->.
    destruct (SkillsMap.get_skill_by_id sm (get x "idref")); [eauto|discriminate].
  - intros [s r]. unfold edge, get_resources_for_skill. simpl.
    rewrite elem_of_setdefault_add. tauto.
Qed.

Lemma resources_add_resource_Ok_inv (m m' : t) (x : Element) :
  add_resource skills_map m x = Ok m' ->
  Forall checked (referenced_skill_ids x) /\
  _id m' = _id m /\
  _resource_ids m' = _resource_ids m ++ [get x "id"] /\
  forall a, edge m' a <->
            edge m a \/ (a.2 = get x "id" /\ a.1 ∈ referenced_skill_ids x).
Proof.
  unfold add_resource. intros E. split; [|split; [|split]].
  - unfold referenced_skill_ids. rewrite Forall_fmap.
    eapply (for_each_Ok_passes _ (fun y => checked (get y "idref"))); [|exact E].
    intros st y st' E1.
    exact (proj1 (resources_add_reference_Ok_inv _ st st' y E1)).
  - eapply (for_each_invariant _ (fun st => _id st = _id m)); [| |exact E];
      [|reflexivity].
    intros st y st' H E1.
    destruct (resources_add_reference_Ok_inv _ st st' y E1) as (_ & -> & _). exact H.
  - eapply (for_each_invariant _
              (fun st => _resource_ids st = _resource_ids m ++ [get x "id"]));
      [| |exact E]; [|reflexivity].
    intros st y st' H E1.
    destruct (resources_add_reference_Ok_inv _ st st' y E1) as (_ & _ & -> & _).
    exact H.
  - intros a.
    rewrite (for_each_grows (add_reference skills_map (get x "id")) edge
               (fun y a => a.1 = get y "idref" /\ a.2 = get x "id")
               (fun st y st' E1 => proj2 (proj2 (proj2
                  (resources_add_reference_Ok_inv (get x "id") st st' y E1))))
               _ _ _ E a).
    unfold referenced_skill_ids. rewrite list_elem_of_fmap.
    unfold edge, get_resources_for_skill. simpl. naive_solver.
Qed.

Variable root : Element.
Variable m : t.
Hypothesis parsed : from_xml root skills_map = Ok m.

Lemma resources_from_xml_id : _id m = get root "id".
Proof.
  unfold from_xml in parsed.
  eapply (for_each_invariant _ (fun st => _id st = get root "id"));
    [| |exact parsed]; [|reflexivity].
  intros st x st' H E.
  destruct (resources_add_resource_Ok_inv st st' x E) as (_ & -> & _). exact H.
Qed.

Lemma resources_from_xml_resource_ids :
  _resource_ids m = (fun x => get x "id") <$> resource_elts root.
Proof.
  unfold from_xml in parsed.
  rewrite (for_each_fold _ _resource_ids (fun acc x => acc ++ [get x "id"])
             (fun st x st' E =>
                proj1 (proj2 (proj2 (resources_add_resource_Ok_inv st st' x E))))
             _ _ _ parsed).
  rewrite fold_left_snoc_fmap. reflexivity.
Qed.

Lemma resources_from_xml_forward_edges (s r : pystr) :
  r ∈ get_resources_for_skill m s <-> resource_edge root s r.
Proof.
  unfold from_xml in parsed.
  pose proof (for_each_grows _ edge
                (fun x a => a.2 = get x "id" /\ a.1 ∈ referenced_skill_ids x)
                (fun st x st' E =>
                   proj2 (proj2 (proj2 (resources_add_resource_Ok_inv st st' x E))))
                _ _ _ parsed (s, r)) as H.
  unfold edge in H. simpl in H. rewrite H. unfold resource_edge.
  fold (resource_elts root). split.
  - intros [H0|(x & Hx & -> & Hs)]; [|eauto].
    unfold get_resources_for_skill in H0. simpl in H0.
    rewrite lookup_empty in H0. simpl in H0. set_solver.
  - intros (x & Hx & <- & Hs). right. eauto.
Qed.

Lemma resources_from_xml_checked (s r : pystr) :
  resource_edge root s r -> checked s.
Proof.
  intros (x & Hx & _ & Hs). unfold from_xml in parsed. fold (resource_elts root) in parsed.
  pose proof (for_each_Ok_passes _ (fun x => Forall checked (referenced_skill_ids x))
                (fun st x st' E => proj1 (resources_add_resource_Ok_inv st st' x E))
                _ _ _ parsed) as H.
  exact (proj1 (Forall_forall _ _) (proj1 (Forall_forall _ _) H x Hx) s Hs).
Qed.

End ResourcesMapContents.

Section Simulation.

Context {S1 S2 X : Type} (body1 : S1 -> X -> result S1) (body2 : S2 -> X -> result S2).
Variable R : S1 -> S2 -> Prop.

(** When each pass of the second loop can follow a successful pass of the
    first, the second loop follows the first to the end. *)
Lemma for_each_simulation :
  (forall s1 s2 x s1', R s1 s2 -> body1 s1 x = Ok s1' ->
                       exists s2', body2 s2 x = Ok s2' /\ R s1' s2') ->
  forall xs s1 s2 s1',
    R s1 s2 -> for_each body1 s1 xs = Ok s1' ->
    exists s2', for_each body2 s2 xs = Ok s2' /\ R s1' s2'.
Proof.
  intros Hbody xs. induction xs as [|x xs IH]; intros s1 s2 s1' HR E.
  - simpl in E. injection E as <-. exists s2. split; [reflexivity | exact HR].
  - rewrite for_each_cons in E.
    destruct (body1 s1 x) as [t1|e] eqn:E1; [|discriminate].
    rewrite bind_Ok in E.
    destruct (Hbody s1 s2 x t1 HR E1) as (t2 & E2 & HR').
    rewrite for_each_cons, E2, bind_Ok. eapply IH; eassumption.
Qed.

End Simulation.

Lemma add_reference_unchecked (skills_map : option SkillsMap.t) (resource_id : pystr)
    (m1 m2 : ResourcesMap.t) (y : Element) (m1' : ResourcesMap.t) :
  m2 = unchecked m1 ->
  ResourcesMap.add_reference skills_map resource_id m1 y = Ok m1' ->
  exists m2', ResourcesMap.add_reference None resource_id m2 y = Ok m2' /\
              m2' = unchecked m1'.
Proof.
  unfold ResourcesMap.add_reference. intros -> E.
  match type of E with (if ?b then _ else _) = _ => destruct b end; [|discriminate].
  injection E as <-. eexists. split; reflexivity.
Qed.

Lemma add_resource_unchecked (skills_map : option SkillsMap.t)
    (m1 m2 : ResourcesMap.t) (x : Element) (m1' : ResourcesMap.t) :
  m2 = unchecked m1 ->
  ResourcesMap.add_resource skills_map m1 x = Ok m1' ->
  exists m2', ResourcesMap.add_resource None m2 x = Ok m2' /\ m2' = unchecked m1'.
Proof.
  unfold ResourcesMap.add_resource. intros -> E.
  exact (for_each_simulation _ _ _
           (add_reference_unchecked skills_map (get x "id")) _ _ _ _ eq_refl E).
Qed.

Lemma resources_from_xml_unchecked (root : Element) (skills_map : option SkillsMap.t)
    (m : ResourcesMap.t) :
  ResourcesMap.from_xml root skills_map = Ok m ->
  ResourcesMap.from_xml root None = Ok (unchecked m).
Proof.
  unfold ResourcesMap.from_xml. intros E.
  destruct (for_each_simulation _ _ _ (add_resource_unchecked skills_map)
              _ _ _ _ eq_refl E) as (m2 & E2 & ->).
  exact E2.
Qed.

Lemma get_objectives_for_resource_elem (self : ResourcesMap.t) (skills_map : SkillsMap.t)
    (resource_id : pystr) :
  ResourcesMap._skills_map self = Some skills_map ->
  exists objectives : gset pystr,
    ResourcesMap.get_objectives_for_resource self resource_id = Ok objectives /\
    forall o, o ∈ objectives <->
              exists s, s ∈ ResourcesMap.get_skills_for_resource self resource_id /\
                        o ∈ SkillsMap.get_objectives_for_skill skills_map s.
Proof.
  intros E. unfold ResourcesMap.get_objectives_for_resource. rewrite E.
  eexists. split; [reflexivity|]. intros o.
  rewrite elem_of_foldl_union. setoid_rewrite elem_of_elements.
  split; [intros [H|H]; [set_solver | exact H] | auto].
Qed.

(** * Further properties of the two maps *)

(** X7: [SkillsMap.from_xml] returns a SkillsMap exactly when every objective
    element has a [description] sub-element and every skill an objective
    refers to is declared in the skills section; the only exceptions it
    raises are [AssertionError] and [AttributeError]. *)
Theorem skills_from_xml_returns_iff :
  forall root : Element,
    ((exists m, SkillsMap.from_xml root = Ok m) <->
     Forall has_description (objective_elts root) /\ references_declared root) /\
    (forall e, SkillsMap.from_xml root = Raise e ->
               e = AssertionError \/ e = AttributeError).
Proof.
  intros root. split; [split|].
  - intros [m E]. split.
    + exact (from_xml_Ok_descriptions root m E).
    + exact (from_xml_Ok_references root m E).
  - intros [Hdesc Hrefs]. exact (from_xml_returns root Hdesc Hrefs).
  - apply skills_from_xml_exceptions.
Qed.

(** X8: the SkillsMap [from_xml] returns lists the skills and the objectives
    in document order, one entry per element, each with the id attribute and
    the text the element (for an objective: its first [description]
    sub-element) carries. *)
Theorem skills_from_xml_document_order (root : Element) (m : SkillsMap.t) :
  SkillsMap.from_xml root = Ok m ->
  SkillsMap.skills m = skill_of_elt <$> skill_elts root /\
  SkillsMap.objectives m = objective_of_elt <$> objective_elts root.
Proof.
  intros E. split.
  - exact (from_xml_skills root m E).
  - exact (from_xml_objectives root m E).
Qed.

Lemma skills_from_xml_document_order_witness :
  SkillsMap.skills sample_skills_map = skill_of_elt <$> skill_elts sample_skills_doc /\
  SkillsMap.objectives sample_skills_map
  = objective_of_elt <$> objective_elts sample_skills_doc.
Proof.
  apply (skills_from_xml_document_order sample_skills_doc).
  vm_compute. reflexivity.
Defined.

(** X9: in the SkillsMap [from_xml] returns, [get_skill_by_id] and
    [get_objective_by_id] return the last entry of the sequence that carries
    the id, and [None] exactly for an id that no element of the section
    carries. *)
Theorem skills_from_xml_lookups (root : Element) (m : SkillsMap.t) :
  SkillsMap.from_xml root = Ok m ->
  forall k : pystr,
    SkillsMap.get_skill_by_id m k
    = last (filter (fun s => Skill.id s = k) (SkillsMap.skills m)) /\
    SkillsMap.get_objective_by_id m k
    = last (filter (fun o => Objective.id o = k) (SkillsMap.objectives m)) /\
    (SkillsMap.get_skill_by_id m k = None <-> k ∉ declared_skill_ids root) /\
    (SkillsMap.get_objective_by_id m k = None <-> k ∉ declared_objective_ids root).
Proof.
  intros E k.
  split; [exact (from_xml_skills_by_id root m E k)|].
  split; [exact (from_xml_objectives_by_id root m E k)|].
  split; [exact (from_xml_skill_None root m E k)|].
  exact (from_xml_objective_None root m E k).
Qed.

Lemma skills_from_xml_lookups_witness :
  SkillsMap.get_skill_by_id sample_skills_map (Some "bad_key")
  = last (filter (fun s => Skill.id s = Some "bad_key")
                 (SkillsMap.skills sample_skills_map)) /\
  SkillsMap.get_objective_by_id sample_skills_map (Some "bad_key")
  = last (filter (fun o => Objective.id o = Some "bad_key")
                 (SkillsMap.objectives sample_skills_map)) /\
  (SkillsMap.get_skill_by_id sample_skills_map (Some "bad_key") = None <->
   Some "bad_key" ∉ declared_skill_ids sample_skills_doc) /\
  (SkillsMap.get_objective_by_id sample_skills_map (Some "bad_key") = None <->
   Some "bad_key" ∉ declared_objective_ids sample_skills_doc).
Proof.
  apply (skills_from_xml_lookups sample_skills_doc).
  vm_compute. reflexivity.
Defined.

(** X10: in the SkillsMap [from_xml] returns, skill [s] is among the skills of
    objective [o], and [o] among the objectives of [s], exactly when some
    objective element with id [o] refers to [s]. *)
Theorem skills_from_xml_edges (root : Element) (m : SkillsMap.t) :
  SkillsMap.from_xml root = Ok m ->
  forall s o : pystr,
    (s ∈ SkillsMap.get_skills_for_objective m o <-> objective_edge root s o) /\
    (o ∈ SkillsMap.get_objectives_for_skill m s <-> objective_edge root s o).
Proof.
  intros E s o. split.
  - exact (from_xml_edges_back root m E s o).
  - exact (from_xml_edges root m E s o).
Qed.

Lemma skills_from_xml_edges_witness :
  (Some "sub" ∈ SkillsMap.get_skills_for_objective sample_skills_map (Some "o2") <->
   objective_edge sample_skills_doc (Some "sub") (Some "o2")) /\
  (Some "o2" ∈ SkillsMap.get_objectives_for_skill sample_skills_map (Some "sub") <->
   objective_edge sample_skills_doc (Some "sub") (Some "o2")).
Proof.
  apply (skills_from_xml_edges sample_skills_doc).
  vm_compute. reflexivity.
Defined.

(** X11: in the SkillsMap [from_xml] returns, every edge joins a skill of the
    id lookup to an objective of the id lookup, and an id that is not
    declared has the empty set of neighbours. *)
Theorem skills_from_xml_integrity (root : Element) (m : SkillsMap.t) :
  SkillsMap.from_xml root = Ok m ->
  (forall s o : pystr,
     s ∈ SkillsMap.get_skills_for_objective m o ->
     is_Some (SkillsMap.get_skill_by_id m s) /\
     is_Some (SkillsMap.get_objective_by_id m o)) /\
  (forall o : pystr,
     o ∉ declared_objective_ids root -> SkillsMap.get_skills_for_objective m o = ∅) /\
  (forall s : pystr,
     s ∉ declared_skill_ids root -> SkillsMap.get_objectives_for_skill m s = ∅).
Proof.
  intros E. split; [|split].
  - intros s o Hso.
    apply (proj1 (from_xml_edges_back root m E s o)) in Hso.
    apply (from_xml_edge_declared root m E) in Hso as [Hs Ho].
    split; apply not_eq_None_Some; intros H.
    + apply (from_xml_skill_None root m E) in H. contradiction.
    + apply (from_xml_objective_None root m E) in H. contradiction.
  - intros o Ho. apply set_eq. intros s.
    rewrite (from_xml_edges_back root m E s o). split; [|set_solver].
    intros H. destruct (from_xml_edge_declared root m E s o H) as [_ H'].
    contradiction.
  - intros s Hs. apply set_eq. intros o.
    rewrite (from_xml_edges root m E s o). split; [|set_solver].
    intros H. destruct (from_xml_edge_declared root m E s o H) as [H' _].
    contradiction.
Qed.

Lemma skills_from_xml_integrity_witness :
  (forall s o : pystr,
     s ∈ SkillsMap.get_skills_for_objective sample_skills_map o ->
     is_Some (SkillsMap.get_skill_by_id sample_skills_map s) /\
     is_Some (SkillsMap.get_objective_by_id sample_skills_map o)) /\
  (forall o : pystr,
     o ∉ declared_objective_ids sample_skills_doc ->
     SkillsMap.get_skills_for_objective sample_skills_map o = ∅) /\
  (forall s : pystr,
     s ∉ declared_skill_ids sample_skills_doc ->
     SkillsMap.get_objectives_for_skill sample_skills_map s = ∅).
Proof.
  apply (skills_from_xml_integrity sample_skills_doc).
  vm_compute. reflexivity.
Defined.

(** X12: for every skills document whose objective elements carry pairwise
    distinct ids, no two entries of the objectives sequence of the SkillsMap
    [from_xml] returns share an id, and [get_objective_by_id] at the id of an
    objective of the sequence returns that objective. *)
Theorem objective_ids_unique_when_declared_once (root : Element) (m : SkillsMap.t) :
  NoDup (declared_objective_ids root) ->
  SkillsMap.from_xml root = Ok m ->
  NoDup (Objective.id <$> SkillsMap.objectives m) /\
  forall o : Objective.t,
    o ∈ SkillsMap.objectives m ->
    SkillsMap.get_objective_by_id m (Objective.id o) = Some o.
Proof.
  intros Hnd E.
  assert (Hids : Objective.id <$> SkillsMap.objectives m = declared_objective_ids root).
  { unfold SkillsMap.objectives, declared_objective_ids.
    rewrite (from_xml_objectives root m E), <- list_fmap_compose. reflexivity. }
  split; [rewrite Hids; exact Hnd|].
  intros o Ho. unfold SkillsMap.get_objective_by_id.
  rewrite (from_xml_objectives_by_id root m E).
  rewrite (filter_unique Objective.id); [reflexivity | | exact Ho].
  fold (SkillsMap.objectives m). rewrite Hids. exact Hnd.
Qed.

Lemma objective_ids_unique_when_declared_once_witness :
  NoDup (Objective.id <$> SkillsMap.objectives sample_skills_map) /\
  forall o : Objective.t,
    o ∈ SkillsMap.objectives sample_skills_map ->
    SkillsMap.get_objective_by_id sample_skills_map (Objective.id o) = Some o.
Proof.
  apply (objective_ids_unique_when_declared_once sample_skills_doc);
    [compute_done | vm_compute; reflexivity].
Defined.

(** X13: the ResourcesMap [from_xml] returns carries the [id] attribute of the
    root element and lists the ids of the resource elements in document
    order, one entry per element. *)
Theorem resources_from_xml_document_order (root : Element)
    (skills_map : option SkillsMap.t) (m : ResourcesMap.t) :
  ResourcesMap.from_xml root skills_map = Ok m ->
  ResourcesMap.id m = get root "id" /\
  ResourcesMap.resource_ids m = (fun x => get x "id") <$> resource_elts root.
Proof.
  intros E. split.
  - exact (resources_from_xml_id skills_map root m E).
  - exact (resources_from_xml_resource_ids skills_map root m E).
Qed.

Lemma resources_from_xml_document_order_witness :
  ResourcesMap.id sample_resources_map = get sample_resources_doc "id" /\
  ResourcesMap.resource_ids sample_resources_map
  = (fun x => get x "id") <$> resource_elts sample_resources_doc.
Proof.
  apply (resources_from_xml_document_order sample_resources_doc
           (Some sample_skills_map)).
  vm_compute. reflexivity.
Defined.

(** X14: in the ResourcesMap [from_xml] returns, skill [s] is among the skills
    of resource [r], and [r] among the resources of [s], exactly when some
    resource element with id [r] refers to [s]; a resource id that no
    element carries has no skills. *)
Theorem resources_from_xml_edges (root : Element) (skills_map : option SkillsMap.t)
    (m : ResourcesMap.t) :
  ResourcesMap.from_xml root skills_map = Ok m ->
  (forall s r : pystr,
     (s ∈ ResourcesMap.get_skills_for_resource m r <-> resource_edge root s r) /\
     (r ∈ ResourcesMap.get_resources_for_skill m s <-> resource_edge root s r)) /\
  (forall r : pystr,
     r ∉ (fun x => get x "id") <$> resource_elts root ->
     ResourcesMap.get_skills_for_resource m r = ∅).
Proof.
  intros E.
  assert (Hback : forall s r,
             s ∈ ResourcesMap.get_skills_for_resource m r <-> resource_edge root s r).
  { intros s r. rewrite <- (resources_from_xml_forward_edges skills_map root m E s r).
    symmetry. exact (proj1 (resources_from_xml_inverse skills_map root m E) s r). }
  split.
  - intros s r. split; [apply Hback|].
    exact (resources_from_xml_forward_edges skills_map root m E s r).
  - intros r Hr. apply set_eq. intros s. rewrite Hback. split; [|set_solver].
    intros (x & Hx & <- & _). exfalso. apply Hr.
    apply list_elem_of_fmap. eauto.
Qed.

Lemma resources_from_xml_edges_witness :
  (forall s r : pystr,
     (s ∈ ResourcesMap.get_skills_for_resource sample_resources_map r <->
      resource_edge sample_resources_doc s r) /\
     (r ∈ ResourcesMap.get_resources_for_skill sample_resources_map s <->
      resource_edge sample_resources_doc s r)) /\
  (forall r : pystr,
     r ∉ (fun x => get x "id") <$> resource_elts sample_resources_doc ->
     ResourcesMap.get_skills_for_resource sample_resources_map r = ∅).
Proof.
  apply (resources_from_xml_edges sample_resources_doc (Some sample_skills_map)).
  vm_compute. reflexivity.
Defined.

(** X15: when [ResourcesMap.from_xml] is given a skills map and returns, every
    skill of every resource of the result is in the id lookup of that skills
    map. *)
Theorem resources_from_xml_integrity (root : Element) (skills_map : SkillsMap.t)
    (m : ResourcesMap.t) :
  ResourcesMap.from_xml root (Some skills_map) = Ok m ->
  forall s r : pystr,
    s ∈ ResourcesMap.get_skills_for_resource m r ->
    is_Some (SkillsMap.get_skill_by_id skills_map s).
Proof.
  intros E s r Hs.
  assert (Hedge : resource_edge root s r).
  { apply (resources_from_xml_forward_edges (Some skills_map) root m E s r).
    exact (proj2 (proj1 (resources_from_xml_inverse _ root m E) s r) Hs). }
  exact (resources_from_xml_checked (Some skills_map) root m E s r Hedge
           skills_map eq_refl).
Qed.

Lemma resources_from_xml_integrity_witness :
  is_Some (SkillsMap.get_skill_by_id sample_skills_map (Some "sub")).
Proof.
  apply (resources_from_xml_integrity sample_resources_doc sample_skills_map
           sample_resources_map) with (r := Some "q1");
    [vm_compute; reflexivity | compute_done].
Defined.

(** X16: the skills map given to [ResourcesMap.from_xml] only adds the check:
    when the checked parse returns a map, the parse of the same document
    without a skills map returns the same map, except that it holds no
    reference to a skills map. *)
Theorem resources_from_xml_check_only (root : Element) (skills_map : SkillsMap.t)
    (m : ResourcesMap.t) :
  ResourcesMap.from_xml root (Some skills_map) = Ok m ->
  ResourcesMap.from_xml root None = Ok (unchecked m).
Proof. apply resources_from_xml_unchecked. Qed.

Lemma resources_from_xml_check_only_witness :
  ResourcesMap.from_xml sample_resources_doc None = Ok (unchecked sample_resources_map).
Proof.
  apply (resources_from_xml_check_only sample_resources_doc sample_skills_map).
  vm_compute. reflexivity.
Defined.

(** X17: for a SkillsMap and a ResourcesMap that [from_xml] returned, the
    second checked against the first, [get_objectives_for_resource] returns
    the objectives [o] for which some skill is referred to both by a
    resource element with the given id and by an objective element with id
    [o]. *)
Theorem get_objectives_for_resource_transitive (skills_root resources_root : Element)
    (skills_map : SkillsMap.t) (m : ResourcesMap.t) :
  SkillsMap.from_xml skills_root = Ok skills_map ->
  ResourcesMap.from_xml resources_root (Some skills_map) = Ok m ->
  forall r : pystr,
    exists objectives : gset pystr,
      ResourcesMap.get_objectives_for_resource m r = Ok objectives /\
      forall o : pystr,
        o ∈ objectives <->
        exists s : pystr,
          resource_edge resources_root s r /\ objective_edge skills_root s o.
Proof.
  intros Es Er r.
  destruct (get_objectives_for_resource_elem m skills_map r
              (proj2 (resources_from_xml_inverse _ resources_root m Er)))
    as (objectives & E & H).
  exists objectives. split; [exact E|]. intros o. rewrite (H o).
  split; intros (s & Hs & Ho); exists s; split.
  - apply (resources_from_xml_forward_edges _ resources_root m Er s r).
    exact (proj2 (proj1 (resources_from_xml_inverse _ resources_root m Er) s r) Hs).
  - exact (proj1 (from_xml_edges skills_root skills_map Es s o) Ho).
  - apply (proj1 (resources_from_xml_inverse _ resources_root m Er) s r).
    exact (proj2 (resources_from_xml_forward_edges _ resources_root m Er s r) Hs).
  - exact (proj2 (from_xml_edges skills_root skills_map Es s o) Ho).
Qed.

Lemma get_objectives_for_resource_transitive_witness :
  exists objectives : gset pystr,
    ResourcesMap.get_objectives_for_resource sample_resources_map (Some "q1")
    = Ok objectives /\
    forall o : pystr,
      o ∈ objectives <->
      exists s : pystr,
        resource_edge sample_resources_doc s (Some "q1") /\
        objective_edge sample_skills_doc s o.
Proof.
  apply (get_objectives_for_resource_transitive sample_skills_doc sample_resources_doc
           sample_skills_map sample_resources_map);
    vm_compute; reflexivity.
Defined.

(** * The student mock-up *)

(** X18: a property set on a student is the one [get] returns, whatever the
    default; setting it leaves the other properties as they were; and a new
    student has no property, so [get] returns the default. *)
Theorem student_setitem_get :
  forall (V : Type) (self : Student.t V) (key key' : pystr) (value default : option V),
    Student.get (Student.setitem self key value) key default = value /\
    (key' <> key ->
     Student.get (Student.setitem self key value) key' default
     = Student.get self key' default) /\
    Student.get Student.__init__ key default = default.
Proof.
  intros V self key key' value default.
  unfold Student.get, Student.setitem. simpl. split; [|split].
  - now rewrite lookup_insert_eq.
  - intros Hne. rewrite lookup_insert_ne by congruence. reflexivity.
  - now rewrite lookup_empty.
Qed.

(** X19: [StudentPropertyEntity.get] returns [None] for every student and
    property: also for a student of its dict on whom the property was set,
    whose own [get] returns the value. *)
Theorem student_property_entity_get_none :
  forall (V : Type) (self : StudentPropertyEntity.t V) (the_student : Student.t V)
         (student property_key : pystr) (value : V),
    StudentPropertyEntity.get self student property_key = None /\
    let known :=
      StudentPropertyEntity.mk
        (<[ student := Student.setitem the_student property_key (Some value) ]>
           (StudentPropertyEntity.students self)) in
    Student.get (Student.setitem the_student property_key (Some value))
                property_key None = Some value /\
    StudentPropertyEntity.get known student property_key = None.
Proof.
  intros V self the_student student property_key value. split; [|split].
  - unfold StudentPropertyEntity.get.
    destruct (StudentPropertyEntity.students self !! student); reflexivity.
  - unfold Student.get, Student.setitem. simpl. now rewrite lookup_insert_eq.
  - unfold StudentPropertyEntity.get. simpl. now rewrite lookup_insert_eq.
Qed.
